(** * Gamma-spectra denoising: the training and inference harness

    A shallow embedding of [train.py] and [denoise.py]: the reproducible
    split, the standardization, the training loop with its best/final
    checkpoints and early stopping, and the inference reconstruction.

    Floating-point numbers are IEEE 754 values ([spec_float]) with the
    binary64 operations for Python and NumPy scalars and the binary32
    operations for torch tensors.  The network, the optimizer, the
    PSNR metric and the random permutations are external collaborators:
    they are variables of the section that holds the two programs. *)

From Stdlib Require Import ZArith List Bool Lia SpecFloat String Ascii.
From stdpp Require Import base option list gmap strings.
Import ListNotations.

#[local] Set Warnings "-register-all".

Local Open Scope string_scope.
Local Open Scope Z_scope.

(** ** Floating point *)

Abbreviation float := spec_float.

(** Python floats and NumPy float64 values. *)
Module B64.
Definition prec : Z := 53.
Definition emax : Z := 1024.
Definition add : float -> float -> float := SFadd prec emax.
Definition sub : float -> float -> float := SFsub prec emax.
Definition mul : float -> float -> float := SFmul prec emax.
Definition div : float -> float -> float := SFdiv prec emax.
Definition sqrt : float -> float := SFsqrt prec emax.
Definition ltb : float -> float -> bool := SFltb.
Definition of_Z (z : Z) : float := binary_normalize prec emax z 0 false.
(** The value of an IEEE number of a narrower format, unchanged. *)
Definition of_float (x : float) : float :=
  match x with
  | S754_finite s m e => binary_normalize prec emax (cond_Zopp s (Zpos m)) e s
  | _ => x
  end.
End B64.

(** torch float tensors and [astype(np.float32)] arrays. *)
Module B32.
Definition prec : Z := 24.
Definition emax : Z := 128.
Definition add : float -> float -> float := SFadd prec emax.
Definition sub : float -> float -> float := SFsub prec emax.
Definition mul : float -> float -> float := SFmul prec emax.
Definition div : float -> float -> float := SFdiv prec emax.
Definition of_Z (z : Z) : float := binary_normalize prec emax z 0 false.
(** Rounding of a binary64 value to binary32 (nearest, ties to even). *)
Definition of_float (x : float) : float :=
  match x with
  | S754_finite s m e => binary_normalize prec emax (cond_Zopp s (Zpos m)) e s
  | _ => x
  end.
End B32.

Definition is_zero (x : float) : bool :=
  match x with S754_zero _ => true | _ => false end.

Definition is_nan (x : float) : bool :=
  match x with S754_nan => true | _ => false end.

(** [math.isfinite]: neither NaN nor an infinity. *)
Definition is_finite (x : float) : bool :=
  match x with S754_zero _ | S754_finite _ _ _ => true | _ => false end.

Definition pos_inf : float := S754_infinity false.
Definition neg_inf : float := S754_infinity true.
Definition nan : float := S754_nan.

(** ** Python values, exceptions and results *)

(** The values a pickled metadata dictionary holds. *)
Inductive pyval :=
  | PyInt (z : Z)
  | PyFloat (f : float)
  | PyStr (s : string)
  | PyList (l : list pyval)
  | PyDict (d : gmap string pyval).

(** The exceptions of the two programs.  The last three are the error
    kinds of the specification's taxonomy; no statement of the source
    raises them. *)
Inductive exn :=
  | AssertionError (msg : string)
  | KeyError (key : string)
  | TypeError
  | ValueError
  | ZeroDivisionError
  | FileNotFoundError (path : string)
  | UnpicklingError
  | InvalidParameterError
  | NumericalDivergenceError
  | UnsupportedModelType.

Inductive result (A : Type) :=
  | Ok (a : A)
  | Raise (e : exn).
Arguments Ok {A} a.
Arguments Raise {A} e.

(** Sequencing: an exception of the first statement skips the rest. *)
#[global] Instance result_ret : MRet result := fun _ a => Ok a.
#[global] Instance result_bind : MBind result := fun _ _ k r =>
  match r with
  | Ok a => k a
  | Raise e => Raise e
  end.

(** [assert cond, msg] *)
Definition py_assert (cond : bool) (msg : string) : result unit :=
  if cond then Ok tt else Raise (AssertionError msg).

(** [d[key]] *)
Definition getitem (d : gmap string pyval) (key : string) : result pyval :=
  match d !! key with
  | Some v => Ok v
  | None => Raise (KeyError key)
  end.

(** [v[key]] on an unpickled value. *)
Definition subscript (v : pyval) (key : string) : result pyval :=
  match v with
  | PyDict d => getitem d key
  | _ => Raise TypeError
  end.

(** [v == s] for a string literal [s]. *)
Definition py_eq_str (v : pyval) (s : string) : bool :=
  match v with
  | PyStr s' => String.eqb s' s
  | _ => false
  end.

(** A Python or NumPy number used as a scalar operand. *)
Definition as_scalar (v : pyval) : result float :=
  match v with
  | PyFloat f => Ok f
  | PyInt z => Ok (B64.of_Z z)
  | _ => Raise TypeError
  end.

(** [x / n] for a Python number [x] and an [int] [n]. *)
Definition py_div (x : float) (n : Z) : result float :=
  if n =? 0 then Raise ZeroDivisionError else Ok (B64.div x (B64.of_Z n)).

(** [x / n] for a NumPy float64 [x]: a warning at most, never an exception. *)
Definition np_div (x : float) (n : Z) : float := B64.div x (B64.of_Z n).

(** [np.random.seed(seed)] and [RandomState(seed)] accept 32-bit seeds. *)
Definition np_random_seed (seed : pyval) : result Z :=
  match seed with
  | PyInt z => if (0 <=? z) && (z <? 2 ^ 32) then Ok z else Raise ValueError
  | _ => Raise TypeError
  end.

(** [os.path.join(d, f)] on POSIX. *)
Definition last_is_slash (d : string) : bool :=
  match rev (list_ascii_of_string d) with
  | c :: _ => Ascii.eqb c "/"
  | [] => false
  end.

Definition path_join (d f : string) : string :=
  if String.prefix "/" f then f
  else if String.eqb d "" then f
  else if last_is_slash d then d +:+ f
  else d +:+ "/" +:+ f.

(** [s.replace(old, new)] for a non-empty [old]: [skip] counts the
    characters of a match that are still to be dropped. *)
Fixpoint replace_from (skip : nat) (old new s : string) : string :=
  match s with
  | EmptyString => EmptyString
  | String c s' =>
      match skip with
      | S k => replace_from k old new s'
      | O =>
          if String.prefix old s
          then new +:+ replace_from (Nat.pred (String.length old)) old new s'
          else String c (replace_from O old new s')
      end
  end.

Definition str_replace (s old new : string) : string := replace_from O old new s.

(** [old in s] *)
Fixpoint occurs (old s : string) : bool :=
  match s with
  | EmptyString => String.prefix old s
  | String _ s' => String.prefix old s || occurs old s'
  end.

(** [os.path.dirname(p)] on POSIX: the head up to the last slash, with
    its trailing slashes removed unless it consists of slashes only. *)
Fixpoint head_chars (l : list ascii) : list ascii :=
  match l with
  | [] => []
  | c :: l' => if existsb (Ascii.eqb "/") l then c :: head_chars l' else []
  end.

Fixpoint lstrip_slash (l : list ascii) : list ascii :=
  match l with
  | c :: l' => if Ascii.eqb c "/" then lstrip_slash l' else l
  | [] => []
  end.

Definition dirname (p : string) : string :=
  let head := head_chars (list_ascii_of_string p) in
  if forallb (Ascii.eqb "/") head then string_of_list_ascii head
  else string_of_list_ascii (rev (lstrip_slash (rev head))).

(** ** Arrays *)

(** One spectrum: the counts of its channels. *)
Abbreviation spectrum := (list float).

(** A batch of examples with the channel axis: shape [(N, 1, L)]. *)
Abbreviation tensor := (list (list spectrum)).

(** [np.expand_dims(a, axis=1)] *)
Definition expand_dims (a : list spectrum) : tensor := map (fun row => [row]) a.

(** A NumPy array of at most three axes. *)
Inductive ndarray :=
  | Nd0 (x : float)
  | Nd1 (a : spectrum)
  | Nd2 (a : list spectrum)
  | Nd3 (a : tensor).

(** [np.squeeze] of a two-dimensional array, given by its rows of one
    length: a single row loses the first axis, rows of one entry lose the
    second. *)
Definition squeeze2 (rows : list spectrum) : ndarray :=
  match rows with
  | [] => Nd1 []
  | [row] => match row with [x] => Nd0 x | _ => Nd1 row end
  | row :: _ => match row with [_] => Nd1 (concat rows) | _ => Nd2 rows end
  end.

(** [np.squeeze(np.array(t))] for a list [t] of examples of one shape
    [(C, L)]: every axis of length one is dropped, the axis of the
    examples and the axis of the channel values like the channel axis.
    The empty list is the array of shape [(0,)], and examples without
    rows make an array of two axes. *)
Definition squeeze (t : tensor) : ndarray :=
  match t with
  | [] => Nd1 []
  | [ex] => squeeze2 ex
  | ex :: _ =>
      match ex with
      | [] => Nd2 (map (fun e => concat e) t)
      | [row] => match row with [_] => Nd1 (concat (concat t)) | _ => Nd2 (concat t) end
      | row :: _ => match row with [_] => Nd2 (map (fun e => concat e) t) | _ => Nd3 t end
      end
  end.

Definition len {A : Type} (l : list A) : Z := Z.of_nat (length l).

(** [a.shape] of a three-dimensional array. *)
Definition shape (t : tensor) : Z * Z * Z :=
  match t with
  | [] => (0, 0, 0)
  | ex :: _ => (len t, len ex, match ex with [] => 0 | row :: _ => len row end)
  end.

Definition shape_eqb (s1 s2 : Z * Z * Z) : bool :=
  let '(a1, b1, c1) := s1 in
  let '(a2, b2, c2) := s2 in
  (a1 =? a2) && (b1 =? b2) && (c1 =? c2).

Definition flatten (t : tensor) : list float := concat (concat t).

(** Elementwise operations on arrays of one shape. *)
Definition tmap (f : float -> float) (t : tensor) : tensor := map (map (map f)) t.

Definition tzip (f : float -> float -> float) (a b : tensor) : tensor :=
  zip_with (zip_with (zip_with f)) a b.

(** [a[idx]]: the rows of [a] at the positions [idx], in that order.  The
    index lists of the programs are permutations, so every position is in
    range. *)
Definition gather {A : Type} (a : list A) (idx : list nat) : list A :=
  omap (fun i => a !! i) idx.

(** [torch.Tensor(a)] and [a.astype(np.float32)] *)
Definition to_f32 (t : tensor) : tensor := tmap B32.of_float t.

(** The batches of a [DataLoader]: consecutive runs of [bs] examples, the
    last one possibly shorter. *)
Fixpoint chunks_fuel {A : Type} (fuel bs : nat) (l : list A) : list (list A) :=
  match fuel, l with
  | S fuel', _ :: _ => take bs l :: chunks_fuel fuel' bs (drop bs l)
  | _, _ => []
  end.

Definition chunks {A : Type} (bs : nat) (l : list A) : list (list A) :=
  chunks_fuel (length l) bs l.

(** A batch of a [TensorDataset] loader: the inputs and the targets. *)
Definition batch : Type := tensor * tensor.

Definition collate (c : list (list spectrum * list spectrum)) : batch :=
  (c.*1, c.*2).

(** [ceil(x)] of a float as an integer; [None] for NaN and infinities. *)
Definition float_ceil (x : float) : option Z :=
  match x with
  | S754_zero _ => Some 0
  | S754_finite s m e =>
      let v := cond_Zopp s (Zpos m) in
      Some (if 0 <=? e then v * 2 ^ e else - ((- v) / 2 ^ (- e)))
  | _ => None
  end.

(** ** Command lines *)

Module TrainArgs.
Record t := {
  det_type : string;
  train_set : string;
  batch_size : Z;
  epochs : Z;
  patience : Z;
  lr : float;
  num_layers : Z;
  num_filters : Z;
  filter_size : Z;
  stride : Z;
  seed : Z;
  log_dir : string;
  model_dir : string
}.
End TrainArgs.

Module DenoiseArgs.
Record t := {
  dettype : string;
  test_set : string;
  all : bool;
  batch_size : Z;
  seed : option Z;
  model : string;
  outdir : option string;
  outfile : string;
  savefigs : bool
}.

(** The same command line with another [--seed]. *)
Definition with_seed (args : t) (seed : option Z) : t :=
  {| dettype := dettype args; test_set := test_set args; all := all args;
     batch_size := batch_size args; seed := seed; model := model args;
     outdir := outdir args; outfile := outfile args; savefigs := savefigs args |}.
End DenoiseArgs.

(** What a run finds outside the program: the files that exist, the
    devices, and the arrays the dataset loader returns for the detector
    type of the command line. *)
Record world := {
  path_exists : string -> bool;
  device_count : nat;
  loaded_noisy : list spectrum;
  loaded_clean : list spectrum;
  loaded_keV : spectrum
}.

(** ** The model and its hyperparameters *)

Inductive arch := DnCNN | DnCNN_Res.

Record hyper := {
  h_num_channels : pyval;
  h_num_layers : pyval;
  h_kernel_size : pyval;
  h_stride : pyval;
  h_num_filters : pyval
}.

(** ** External collaborators

    The libraries the programs call: the random permutations of
    scikit-learn and of the shuffling loader, NumPy's summation, the PSNR
    of scikit-image, and torch's network, loss, optimizer and
    learning-rate scheduler. *)
Class Externals := {
  (** [RandomState(seed).permutation(n)] *)
  rng_permutation : Z -> nat -> list nat;
  rng_permutation_perm : forall seed n, Permutation (rng_permutation seed n) (seq 0 n);
  (** the order in which the shuffling loader visits [n] examples in an epoch *)
  loader_perm : nat -> nat -> list nat;
  loader_perm_perm : forall epoch n, Permutation (loader_perm epoch n) (seq 0 n);
  (** [np.sum] of the elements of an array *)
  np_sum : list float -> float;
  (** [peak_signal_noise_ratio(clean, denoised, data_range=r)] *)
  peak_signal_noise_ratio : list spectrum -> list spectrum -> Z -> float;
  (** a [state_dict] *)
  weights : Type;
  (** the optimizer with its scheduler *)
  optim : Type;
  (** the freshly initialised network, after [torch.manual_seed(seed)] *)
  init_weights : arch -> hyper -> Z -> weights;
  (** [model(batch)], in training or in evaluation mode *)
  forward : arch -> hyper -> bool -> weights -> tensor -> tensor;
  (** [MSELoss(reduction='sum')], a binary32 scalar *)
  criterion : tensor -> tensor -> float;
  (** [Adam(model.parameters(), lr)] with [ReduceLROnPlateau(patience)] *)
  adam : float -> Z -> optim;
  (** [zero_grad(); loss.backward(); optimizer.step()] on one batch *)
  optim_step : arch -> hyper -> weights -> optim -> tensor -> tensor -> weights * optim;
  (** [scheduler.step(val_loss)] *)
  scheduler_step : optim -> float -> optim
}.

(** A stored artifact: the weights of [torch.save] or the pickled
    metadata. *)
Inductive file `{Externals} :=
  | FWeights (w : weights)
  | FPickle (v : pyval).

(** What a test reads back from the artifacts of a run. *)
Definition exit_code {A : Type} (r : result (Z * A)) : result Z :=
  match r with
  | Ok (code, _) => Ok code
  | Raise e => Raise e
  end.

Definition artifacts `{Externals} (r : result (Z * gmap string file))
  : gmap string file :=
  match r with
  | Ok (_, fs) => fs
  | Raise _ => ∅
  end.

Definition stored_weights `{Externals} (fs : gmap string file) (path : string)
  : option weights :=
  match fs !! path with
  | Some (FWeights w) => Some w
  | _ => None
  end.

Definition stored_pickle `{Externals} (fs : gmap string file) (path : string)
  : option pyval :=
  match fs !! path with
  | Some (FPickle v) => Some v
  | _ => None
  end.

(** ** What the two programs share *)

Section Shared.
Context `{E : Externals}.

(** [setup_gpus]: the identifiers of the devices found. *)
Definition setup_gpus (w : world) : list nat := seq 0 (device_count w).

(** [for x in l: s = body(s, x)], stopping at the first exception. *)
Fixpoint for_each {A S : Type} (l : list A) (body : S -> A -> result S) (s : S)
  : result S :=
  match l with
  | [] => Ok s
  | x :: l' => s' ← body s x; for_each l' body s'
  end.

(** [psnr_of_batch]: the mean PSNR of the examples of a batch, whose
    two arrays have one shape.  The sum starts as the [int] 0, so an
    empty batch divides two integers. *)
Definition psnr_of_batch (clean_imgs denoised_imgs : tensor) : result float :=
  let batch_psnr :=
    fold_left (fun acc cd => B64.add acc (peak_signal_noise_ratio cd.1 cd.2 1))
      (zip clean_imgs denoised_imgs) (B64.of_Z 0) in
  py_div batch_psnr (shape clean_imgs).1.1.

(** [ceil(test_size * n_samples)] with [test_size = 0.1] *)
Definition n_test_of (n : nat) : nat :=
  let test_size := B64.div (B64.of_Z 1) (B64.of_Z 10) in
  match float_ceil (B64.mul test_size (B64.of_Z (Z.of_nat n))) with
  | Some z => Z.to_nat z
  | None => O
  end.

(** The index partition of [ShuffleSplit]: it is computed from the
    number of examples and the seed. *)
Definition split_indices (n : nat) (seed : Z) : list nat * list nat :=
  let n_test := n_test_of n in
  let n_train := (n - n_test)%nat in
  let permutation := rng_permutation seed n in
  (take n_train (drop n_test permutation), take n_test permutation).

(** [train_test_split(a, b, test_size=0.1, random_state=seed)] *)
Definition train_test_split (a b : tensor) (random_state : pyval)
  : result (tensor * tensor * tensor * tensor) :=
  if negb (length a =? length b)%nat then Raise ValueError
  else
    let n := length a in
    if (n - n_test_of n =? 0)%nat then Raise ValueError
    else
      seed ← np_random_seed random_state;
      let '(ind_train, ind_test) := split_indices n seed in
      mret (gather a ind_train, gather a ind_test,
            gather b ind_train, gather b ind_test).

(** [np.mean(x)] over all elements; the loaded arrays are taken to be
    float64 arrays, the default of NumPy. *)
Definition np_mean (x : tensor) : float :=
  B64.div (np_sum (flatten x)) (B64.of_Z (len (flatten x))).

(** [np.std(x)]: the root of the mean squared deviation. *)
Definition np_std (x : tensor) : float :=
  let arrmean := np_mean x in
  let dev := map (fun v => B64.sub v arrmean) (flatten x) in
  B64.sqrt (B64.div (np_sum (map (fun d => B64.mul d d) dev))
                    (B64.of_Z (len (flatten x)))).

(** A loader over a [TensorDataset]. *)
Record loader := {
  dataset : list (list spectrum * list spectrum);
  bs : nat;
  shuffle : bool
}.

(** [TensorDataset(x, y)]: example [i] is the pair of the rows [i]; the
    two arrays come out of one split and have the same length. *)
Definition TensorDataset (x y : tensor) : list (list spectrum * list spectrum) :=
  zip x y.

(** [DataLoader(dataset, batch_size, shuffle)]: the batch sampler
    refuses a batch size that is not positive. *)
Definition DataLoader (ds : list (list spectrum * list spectrum))
    (batch_size : Z) (shuffle : bool) : result loader :=
  if batch_size <=? 0 then Raise ValueError
  else Ok {| dataset := ds; bs := Z.to_nat batch_size; shuffle := shuffle |}.

(** The batches of one pass over the loader. *)
Definition batches (l : loader) (epoch : nat) : list batch :=
  let order :=
    if shuffle l
    then gather (dataset l) (loader_perm epoch (length (dataset l)))
    else dataset l in
  map collate (chunks (bs l) order).

(** [len(loader)] *)
Definition loader_len (l : loader) : Z := len (chunks (bs l) (dataset l)).
End Shared.

(** ** train.py *)

Module Train.
Import TrainArgs.
Section Program.
Context `{E : Externals}.

(** The [history] dictionary: its four keys are fixed when it is
    created, the three lists grow by one entry per epoch. *)
Record history := {
  model : gmap string pyval;
  train : list float;
  val : list float;
  psnr : list float
}.

(** [pickle.dump(history, ...)]: the value a later [pickle.load] returns. *)
Definition pickle (h : history) : pyval :=
  PyDict (<["model" := PyDict (model h)]>
         (<["train" := PyList (PyFloat <$> train h)]>
         (<["val" := PyList (PyFloat <$> val h)]>
         (<["psnr" := PyList (PyFloat <$> psnr h)]> ∅)))).

(** The variables of [main] that the training loop updates. *)
Record state := {
  net : weights;
  opt : optim;
  best_val_loss : float;
  best_psnr : float;
  epochs_since_improvement : Z;
  hist : history;
  files : gmap string file
}.

(** The hyperparameters of the network that [main] builds. *)
Definition hyper_of (args : TrainArgs.t) : hyper :=
  {| h_num_channels := PyInt 1;
     h_num_layers := PyInt (num_layers args);
     h_kernel_size := PyInt (filter_size args);
     h_stride := PyInt (stride args);
     h_num_filters := PyInt (num_filters args) |}.

(** [model_params] *)
Definition model_params (args : TrainArgs.t) (train_mean train_std : float)
  : gmap string pyval :=
  <["num_channels" := PyInt 1]>
  (<["num_layers" := PyInt (num_layers args)]>
  (<["kernel_size" := PyInt (filter_size args)]>
  (<["stride" := PyInt (stride args)]>
  (<["num_filters" := PyInt (num_filters args)]>
  (<["train_mean" := PyFloat train_mean]>
  (<["train_std" := PyFloat train_std]> ∅)))))).

(** [(x - train_mean) / train_std] on a NumPy array. *)
Definition standardize (x : tensor) (train_mean train_std : float) : tensor :=
  tmap (fun v => B64.div (B64.sub v train_mean) train_std) x.

(** [criterion(preds, clean_spectra) / (2 * len(noisy_spectra))], then
    [.item()]. *)
Definition loss_item (preds clean_spectra noisy_spectra : tensor) : float :=
  B64.of_float
    (B32.div (criterion preds clean_spectra) (B32.of_Z (2 * len noisy_spectra))).

(** One batch of the training pass. *)
Definition train_batch (args : TrainArgs.t)
    (acc : float * (weights * optim)) (b : batch) : float * (weights * optim) :=
  let '(epoch_train_loss, (w, o)) := acc in
  let '(noisy_spectra, clean_spectra) := b in
  let preds := forward DnCNN (hyper_of args) true w noisy_spectra in
  let loss := loss_item preds clean_spectra noisy_spectra in
  (B64.add epoch_train_loss loss,
   optim_step DnCNN (hyper_of args) w o noisy_spectra clean_spectra).

(** One batch of the validation pass. *)
Definition val_batch (args : TrainArgs.t) (w : weights)
    (acc : float * float) (b : batch) : result (float * float) :=
  let '(epoch_val_loss, epoch_psnr) := acc in
  let '(noisy_spectra, clean_spectra) := b in
  let preds := forward DnCNN (hyper_of args) false w noisy_spectra in
  let val_loss := loss_item preds clean_spectra noisy_spectra in
  p ← psnr_of_batch (to_f32 clean_spectra) (to_f32 preds);
  mret (B64.add epoch_val_loss val_loss, B64.add epoch_psnr p).

(** The three numbers of an epoch, with the network after it. *)
Record epoch_stats := {
  epoch_train_loss : float;
  epoch_val_loss : float;
  epoch_psnr : float
}.

(** The passes over the two loaders and the epoch summary: the part of
    the loop body before the history is touched. *)
Definition learn (args : TrainArgs.t) (train_loader val_loader : loader)
    (epoch : nat) (wo : weights * optim) : result (epoch_stats * (weights * optim)) :=
  let '(train_loss, (w, o)) :=
    fold_left (train_batch args) (batches train_loader epoch) (B64.of_Z 0, wo) in
  '(val_loss, ps) ←
    for_each (batches val_loader epoch) (val_batch args w) (B64.of_Z 0, B64.of_Z 0);
  train_loss ← py_div train_loss (loader_len train_loader);
  val_loss ← py_div val_loss (loader_len val_loader);
  let ps := np_div ps (loader_len val_loader) in
  let o := scheduler_step o val_loss in
  mret ({| epoch_train_loss := train_loss;
           epoch_val_loss := val_loss;
           epoch_psnr := ps |}, (w, o)).

(** [history[...].append(...)] for the three lists. *)
Definition record_epoch (h : history) (s : epoch_stats) : history :=
  {| model := model h;
     train := train h ++ [epoch_train_loss s];
     val := val h ++ [epoch_val_loss s];
     psnr := psnr h ++ [epoch_psnr s] |}.

(** The rest of the loop body: the history, the best checkpoint and the
    counter of epochs without improvement. *)
Definition checkpoint (args : TrainArgs.t) (st : state) (s : epoch_stats)
    (wo : weights * optim) : state :=
  let history := record_epoch (hist st) s in
  if B64.ltb (epoch_val_loss s) (best_val_loss st) then
    {| net := wo.1; opt := wo.2;
       best_val_loss := epoch_val_loss s;
       best_psnr := best_psnr st;
       epochs_since_improvement := 0;
       hist := history;
       files :=
         <[path_join (model_dir args) "best_model.npy" := FPickle (pickle history)]>
         (<[path_join (model_dir args) "best_model.pt" := FWeights wo.1]> (files st)) |}
  else
    {| net := wo.1; opt := wo.2;
       best_val_loss := best_val_loss st;
       best_psnr := best_psnr st;
       epochs_since_improvement := epochs_since_improvement st + 1;
       hist := history;
       files := files st |}.

Definition run_epoch (args : TrainArgs.t) (train_loader val_loader : loader)
    (epoch : nat) (st : state) : result state :=
  '(s, wo) ← learn args train_loader val_loader epoch (net st, opt st);
  mret (checkpoint args st s wo).

(** [for epoch in range(args.epochs)] with its [break]: [todo] epochs
    are left, the next one is [epoch]. *)
Fixpoint train_loop (args : TrainArgs.t) (train_loader val_loader : loader)
    (todo epoch : nat) (st : state) : result state :=
  match todo with
  | O => Ok st
  | S todo' =>
      st' ← run_epoch args train_loader val_loader epoch st;
      if patience args <? epochs_since_improvement st' then Ok st'
      else train_loop args train_loader val_loader todo' (S epoch) st'
  end.

(** The arrays and loaders that [main] prepares before it builds the
    network. *)
Record prepared := {
  train_mean : float;
  train_std : float;
  x_train : tensor;
  x_val : tensor;
  y_train : tensor;
  y_val : tensor;
  train_loader : loader;
  val_loader : loader
}.

(** The head of [main], to the split into training and validation
    sets. *)
Definition load_and_split (args : TrainArgs.t) (w : world)
  : result (tensor * tensor * tensor * tensor) :=
  _ ← py_assert (path_exists w (train_set args)) "Cannot find training vectors file";
  let noisy_spectra := expand_dims (loaded_noisy w) in
  let clean_spectra := expand_dims (loaded_clean w) in
  _ ← py_assert (shape_eqb (shape noisy_spectra) (shape clean_spectra))
        "Mismatch between shapes of training and target data";
  _ ← np_random_seed (PyInt (seed args));
  train_test_split noisy_spectra clean_spectra (PyInt (seed args)).

(** From the split to the loaders: the standardization parameters of
    the training inputs, applied to both sets of inputs. *)
Definition prepare (args : TrainArgs.t) (w : world) : result prepared :=
  let device_ids := setup_gpus w in
  '(x_train, x_val, y_train, y_val) ← load_and_split args w;
  let train_mean := np_mean x_train in
  let train_std := np_std x_train in
  let x_train := standardize x_train train_mean train_std in
  let x_val := standardize x_val train_mean train_std in
  let train_dataset := TensorDataset (to_f32 x_train) (to_f32 y_train) in
  let val_dataset := TensorDataset (to_f32 x_val) (to_f32 y_val) in
  train_loader ← DataLoader train_dataset (batch_size args * len device_ids) true;
  val_loader ← DataLoader val_dataset (batch_size args) false;
  mret {| train_mean := train_mean; train_std := train_std;
          x_train := x_train; x_val := x_val;
          y_train := y_train; y_val := y_val;
          train_loader := train_loader; val_loader := val_loader |}.

(** The state at the head of the training loop, [model.npy] written. *)
Definition init_state (args : TrainArgs.t) (p : prepared)
    (fs : gmap string file) : state :=
  let history :=
    {| model := model_params args (train_mean p) (train_std p);
       train := []; val := []; psnr := [] |} in
  {| net := init_weights DnCNN (hyper_of args) (seed args);
     opt := adam (lr args) (patience args / 2);
     best_val_loss := B64.of_Z 99999;
     best_psnr := B64.of_Z 0;
     epochs_since_improvement := 0;
     hist := history;
     files := <[path_join (model_dir args) "model.npy" := FPickle (pickle history)]> fs |}.

(** [# saving final model] *)
Definition save_final (args : TrainArgs.t) (st : state) : gmap string file :=
  <[path_join (model_dir args) "final_model.npy" := FPickle (pickle (hist st))]>
  (<[path_join (model_dir args) "final_model.pt" := FWeights (net st)]> (files st)).

(** [main]: the exit status and the artifacts of the run.  The
    exceptions of the library calls between the program's own checks are
    left out: [os.makedirs] on a directory name that cannot be created,
    the constructors of the network and of the optimizer (which refuses
    a negative learning rate) and the moves to a device.  [main] may
    therefore return where the program stops in one of these calls. *)
Definition main (args : TrainArgs.t) (w : world) (fs : gmap string file)
  : result (Z * gmap string file) :=
  p ← prepare args w;
  st ← train_loop args (train_loader p) (val_loader p)
         (Z.to_nat (epochs args)) O (init_state args p fs);
  mret (0, save_final args st).
End Program.
End Train.

(** ** denoise.py *)

Module Denoise.
Import DenoiseArgs.
Section Program.
Context `{E : Externals}.

(** [pickle.load(open(path, 'rb'))] *)
Definition pickle_load (fs : gmap string file) (path : string) : result pyval :=
  match fs !! path with
  | Some (FPickle v) => Ok v
  | Some (FWeights _) => Raise UnpicklingError
  | None => Raise (FileNotFoundError path)
  end.

(** [torch.load(path)] *)
Definition torch_load (fs : gmap string file) (path : string) : result weights :=
  match fs !! path with
  | Some (FWeights w) => Ok w
  | Some (FPickle _) => Raise UnpicklingError
  | None => Raise (FileNotFoundError path)
  end.

(** [if not args.seed: args.seed = params['train_seed']]: the seed that
    the rest of [main] uses. *)
Definition resolve_seed (seed : option Z) (params : pyval) : result pyval :=
  match seed with
  | Some s => if s =? 0 then subscript params "train_seed" else Ok (PyInt s)
  | None => subscript params "train_seed"
  end.

(** The keyword arguments of the two constructors. *)
Definition hyper_of (params : pyval) : result hyper :=
  num_channels ← subscript params "num_channels";
  num_layers ← subscript params "num_layers";
  kernel_size ← subscript params "kernel_size";
  stride ← subscript params "stride";
  num_filters ← subscript params "num_filters";
  mret {| h_num_channels := num_channels; h_num_layers := num_layers;
          h_kernel_size := kernel_size; h_stride := stride;
          h_num_filters := num_filters |}.

(** [# create and load model]: [None] stands for the branch that
    reports an unsupported name and returns 1. *)
Definition create_model (params : pyval) : result (option (arch * hyper)) :=
  model_name ← subscript params "model_name";
  if py_eq_str model_name "DnCNN" then
    h ← hyper_of params; mret (Some (DnCNN, h))
  else
    model_name ← subscript params "model_name";
    if py_eq_str model_name "DnCNN-res" then
      h ← hyper_of params; mret (Some (DnCNN_Res, h))
    else mret None.

(** [(noisy_spectra - train_mean) / train_std] on a torch tensor. *)
Definition standardize (noisy_spectra : tensor) (train_mean train_std : float)
  : tensor :=
  tmap (fun v => B32.div (B32.sub v (B32.of_float train_mean))
                         (B32.of_float train_std)) noisy_spectra.

(** [# save denoised spectrum] *)
Definition denoised_spectrum (model_type : pyval) (noisy_spectra preds : tensor)
  : tensor :=
  if py_eq_str model_type "Gen-spectrum" then preds
  else tzip B32.sub noisy_spectra preds.

(** The variables the denoising loop updates. *)
Record totals := {
  total_psnr_noisy : float;
  total_psnr_denoised : float;
  denoised : tensor
}.

(** The body of the denoising loop. *)
Definition denoise_batch (a : arch) (h : hyper) (w : weights) (params : pyval)
    (train_mean train_std : pyval) (acc : totals) (b : batch) : result totals :=
  let '(noisy_spectra, clean_spectra) := b in
  mean ← as_scalar train_mean;
  std ← as_scalar train_std;
  let preds := forward a h false w (standardize noisy_spectra mean std) in
  let clean_spectra := to_f32 clean_spectra in
  let noisy_spectra := to_f32 noisy_spectra in
  let preds := to_f32 preds in
  psnr_noisy ← psnr_of_batch clean_spectra noisy_spectra;
  model_type ← subscript params "model_type";
  let denoised_spectrum := denoised_spectrum model_type noisy_spectra preds in
  psnr_denoised ← psnr_of_batch clean_spectra denoised_spectrum;
  mret {| total_psnr_noisy := B64.add (total_psnr_noisy acc) psnr_noisy;
          total_psnr_denoised := B64.add (total_psnr_denoised acc) psnr_denoised;
          denoised := denoised acc ++ denoised_spectrum |}.

(** What a run leaves behind. *)
Record output := {
  exit_status : Z;
  used_seed : option Z;
  denoised_spectra : tensor;
  saved : option (string * ndarray);
  avg_psnr_noisy : float;
  avg_psnr_denoised : float
}.

(** The examples to denoise: the validation part of the split, or
    everything with [--all]. *)
Definition val_dataset (args : DenoiseArgs.t) (noisy_spectra clean_spectra : tensor)
    (seed : pyval) : result (list (list spectrum * list spectrum)) :=
  if negb (all args) then
    '(_, x_val, _, y_val) ← train_test_split noisy_spectra clean_spectra seed;
    mret (TensorDataset (to_f32 x_val) (to_f32 y_val))
  else mret (TensorDataset (to_f32 noisy_spectra) (to_f32 clean_spectra)).

(** [main]: the plots of [--savefigs] and the directory that [--outdir]
    creates are left out; the dataset handed to the external writer is
    the [saved] field of the output.  The exceptions of the library
    calls between the program's own checks are left out as well: the
    constructor of the network, its move to a device (which needs one)
    and [load_state_dict] on weights that do not fit.  [main] may
    therefore return where the program stops in one of these calls. *)
Definition main (args : DenoiseArgs.t) (w : world) (fs : gmap string file)
  : result output :=
  let outdir :=
    match outdir args with
    | Some d => if String.eqb d "" then dirname (model args) else d
    | None => dirname (model args)
    end in
  _ ← py_assert (path_exists w (test_set args)) "Cannot find testset vectors file";
  let device_ids := setup_gpus w in
  let noisy_spectra := expand_dims (loaded_noisy w) in
  let clean_spectra := expand_dims (loaded_clean w) in
  _ ← py_assert (shape_eqb (shape noisy_spectra) (shape clean_spectra))
        "Mismatch between shapes of training and target data";
  history ← pickle_load fs (str_replace (model args) ".pt" ".npy");
  params ← subscript history "model";
  train_mean ← subscript params "train_mean";
  train_std ← subscript params "train_std";
  seed ← resolve_seed (seed args) params;
  seed_used ← np_random_seed seed;
  val_dataset ← val_dataset args noisy_spectra clean_spectra seed;
  val_loader ← DataLoader val_dataset (batch_size args) false;
  net ← create_model params;
  match net with
  | None =>
      mret {| exit_status := 1; used_seed := Some seed_used;
              denoised_spectra := []; saved := None;
              avg_psnr_noisy := B64.of_Z 0; avg_psnr_denoised := B64.of_Z 0 |}
  | Some (a, h) =>
      _ ← subscript params "model_name";
      _ ← subscript params "model_type";
      weights ← torch_load fs (model args);
      t ← for_each (batches val_loader O)
            (denoise_batch a h weights params train_mean train_std)
            {| total_psnr_noisy := B64.of_Z 0;
               total_psnr_denoised := B64.of_Z 0;
               denoised := [] |};
      saved ←
        (if all args then
           _ ← py_assert (len (loaded_noisy w) =? len (denoised t))
                 "examples yet denoised";
           mret (Some (path_join outdir (outfile args), squeeze (denoised t)))
         else mret None);
      avg_psnr_noisy ← py_div (total_psnr_noisy t) (loader_len val_loader);
      avg_psnr_denoised ← py_div (total_psnr_denoised t) (loader_len val_loader);
      mret {| exit_status := 0; used_seed := Some seed_used;
              denoised_spectra := denoised t; saved := saved;
              avg_psnr_noisy := avg_psnr_noisy;
              avg_psnr_denoised := avg_psnr_denoised |}
  end.
End Program.
End Denoise.

(** ** Vocabulary of the properties *)

Section Vocabulary.
Context `{E : Externals}.

(** The epochs that the network goes through when nothing stops the
    loop: the summaries of [n] epochs from [epoch] on.  The learning
    does not look at the checkpoint bookkeeping. *)
Fixpoint learning (args : TrainArgs.t) (train_loader val_loader : loader)
    (n epoch : nat) (wo : weights * optim)
  : result (list Train.epoch_stats * (weights * optim)) :=
  match n with
  | O => Ok ([], wo)
  | S n' =>
      '(s, wo') ← Train.learn args train_loader val_loader epoch wo;
      '(ss, wo'') ← learning args train_loader val_loader n' (S epoch) wo';
      mret (s :: ss, wo'')
  end.



(** No loss of the sequence is below [best]. *)
Fixpoint never_improving (best : float) (vs : list float) : Prop :=
  match vs with
  | [] => True
  | v :: vs' => B64.ltb v best = false /\ never_improving best vs'
  end.

(** The history after further epochs. *)
Definition extend_history (h : Train.history) (ss : list Train.epoch_stats)
  : Train.history :=
  fold_left Train.record_epoch ss h.
End Vocabulary.

(** The exceptions that the statements of [train.py] can raise. *)
Definition raised_by_train (e : exn) : Prop :=
  match e with
  | AssertionError _ | ValueError | ZeroDivisionError => True
  | _ => False
  end.

(** The two output conventions of the specification.  The metadata
    stores the convention as a string: ["Gen-spectrum"] is the one that
    [denoise.py] names, and [residual_tag] stands for the string of the
    other one. *)
Inductive ModelType := GenSpectrum | ResidualSpectrum.

Definition stored_model_type (residual_tag : string) (t : ModelType) : pyval :=
  match t with
  | GenSpectrum => PyStr "Gen-spectrum"
  | ResidualSpectrum => PyStr residual_tag
  end.

(** ** Vocabulary of the run of the training loop *)

Section RunVocabulary.
Context `{E : Externals}.

(** The five artifacts of [train.py]. *)
Definition model_npy (args : TrainArgs.t) : string :=
  path_join (TrainArgs.model_dir args) "model.npy".
Definition best_pt (args : TrainArgs.t) : string :=
  path_join (TrainArgs.model_dir args) "best_model.pt".
Definition best_npy (args : TrainArgs.t) : string :=
  path_join (TrainArgs.model_dir args) "best_model.npy".
Definition final_pt (args : TrainArgs.t) : string :=
  path_join (TrainArgs.model_dir args) "final_model.pt".
Definition final_npy (args : TrainArgs.t) : string :=
  path_join (TrainArgs.model_dir args) "final_model.npy".

Definition written_by_train (args : TrainArgs.t) : list string :=
  [model_npy args; best_pt args; best_npy args; final_pt args; final_npy args].

(** The validation losses of a list of epochs. *)
Definition val_losses (ss : list Train.epoch_stats) : list float :=
  map Train.epoch_val_loss ss.

(** Where the best checkpoint stands after [e] epochs with the
    summaries [ss]: either no epoch has improved on the initial loss
    [b0] and the two best artifacts are as they were in [fs0], or the
    last improvement was in epoch [n], whose weights and history are the
    two best artifacts. *)
Definition best_stands (args : TrainArgs.t) (tl vl : loader)
    (wo0 : weights * optim) (h0 : Train.history) (b0 : float)
    (fs0 : gmap string file) (e : nat) (ss : list Train.epoch_stats)
    (st : Train.state) : Prop :=
  (Train.best_val_loss st = b0 /\
   Train.files st !! best_pt args = fs0 !! best_pt args /\
   Train.files st !! best_npy args = fs0 !! best_npy args /\
   Train.epochs_since_improvement st = Z.of_nat e)
  \/
  (exists (n : nat) (wn : weights * optim) (sn : Train.epoch_stats),
     (1 <= n <= e)%nat /\
     learning args tl vl n O wo0 = Ok (take n ss, wn) /\
     ss !! (n - 1)%nat = Some sn /\
     Train.best_val_loss st = Train.epoch_val_loss sn /\
     B64.ltb (Train.epoch_val_loss sn) b0 = true /\
     Train.files st !! best_pt args = Some (FWeights wn.1) /\
     Train.files st !! best_npy args
       = Some (FPickle (Train.pickle (extend_history h0 (take n ss)))) /\
     Train.epochs_since_improvement st = Z.of_nat e - Z.of_nat n).

(** The state of the loop after [e] epochs of a run that started from
    the weights [wo0], the history [h0], the best loss [b0] and the
    files [fs0]. *)
Definition after_epochs (args : TrainArgs.t) (tl vl : loader)
    (wo0 : weights * optim) (h0 : Train.history) (b0 : float)
    (fs0 : gmap string file) (e : nat) (ss : list Train.epoch_stats)
    (st : Train.state) : Prop :=
  learning args tl vl e O wo0 = Ok (ss, (Train.net st, Train.opt st)) /\
  Train.hist st = extend_history h0 ss /\
  never_improving (Train.best_val_loss st) (val_losses ss) /\
  (forall path, path <> best_pt args -> path <> best_npy args ->
     Train.files st !! path = fs0 !! path) /\
  best_stands args tl vl wo0 h0 b0 fs0 e ss st.
End RunVocabulary.

(** The conditions that [train.py] checks, or that the libraries check
    for it, before the network is built: the dataset file exists, the
    two arrays have one shape, the seed is a 32-bit number, the split
    leaves a training example, the batch size is positive and there is
    a device. *)
Definition accepted (args : TrainArgs.t) (w : world) : Prop :=
  let noisy := expand_dims (loaded_noisy w) in
  let clean := expand_dims (loaded_clean w) in
  path_exists w (TrainArgs.train_set args) = true /\
  shape_eqb (shape noisy) (shape clean) = true /\
  0 <= TrainArgs.seed args < 2 ^ 32 /\
  (n_test_of (length noisy) < length noisy)%nat /\
  0 < TrainArgs.batch_size args /\
  (0 < device_count w)%nat.

(** ** A scripted instance of the collaborators

    Used to run the programs on concrete inputs: the permutations are the
    identity, sums go from left to right, and the network after [k]
    optimizer steps outputs the constant [script k], which the loss
    returns as it is. *)
Module Scripted.
Definition sum_left (l : list float) : float := fold_left B64.add l (B64.of_Z 0).

Definition first_entry (t : tensor) : float :=
  match flatten t with
  | v :: _ => v
  | [] => B32.of_Z 0
  end.

Definition externals (script : nat -> float) : Externals :=
  {| rng_permutation := fun _ n => seq 0 n;
     rng_permutation_perm := fun _ n => Permutation_refl (seq 0 n);
     loader_perm := fun _ n => seq 0 n;
     loader_perm_perm := fun _ n => Permutation_refl (seq 0 n);
     np_sum := sum_left;
     peak_signal_noise_ratio := fun _ _ _ => B64.of_Z 0;
     weights := nat;
     optim := unit;
     init_weights := fun _ _ _ => O;
     forward := fun _ _ _ k x => tmap (fun _ => script k) x;
     criterion := fun preds _ => first_entry preds;
     adam := fun _ _ => tt;
     optim_step := fun _ _ k o _ _ => (S k, o);
     scheduler_step := fun o _ => o |}.

(** The default command line of [train.py], with the number of epochs
    and the patience left open. *)
Definition train_args (epochs patience : Z) : TrainArgs.t :=
  {| TrainArgs.det_type := "HPGe";
     TrainArgs.train_set := "data/training.h5";
     TrainArgs.batch_size := 16;
     TrainArgs.epochs := epochs;
     TrainArgs.patience := patience;
     TrainArgs.lr := B64.div (B64.of_Z 1) (B64.of_Z 100);
     TrainArgs.num_layers := 20;
     TrainArgs.num_filters := 64;
     TrainArgs.filter_size := 3;
     TrainArgs.stride := 1;
     TrainArgs.seed := 42;
     TrainArgs.log_dir := "logs";
     TrainArgs.model_dir := "models" |}.

(** The default command line of [denoise.py] with a seed and a model path. *)
Definition denoise_args (seed : option Z) (model : string) : DenoiseArgs.t :=
  {| DenoiseArgs.dettype := "HPGe";
     DenoiseArgs.test_set := "data/training.h5";
     DenoiseArgs.all := false;
     DenoiseArgs.batch_size := 64;
     DenoiseArgs.seed := seed;
     DenoiseArgs.model := model;
     DenoiseArgs.outdir := None;
     DenoiseArgs.outfile := "denoised.h5";
     DenoiseArgs.savefigs := false |}.

(** One device and a dataset file with the given spectra. *)
Definition a_world (noisy clean : list spectrum) : world :=
  {| path_exists := fun p => String.eqb p "data/training.h5";
     device_count := 1;
     loaded_noisy := noisy;
     loaded_clean := clean;
     loaded_keV := [] |}.

(** The binary64 number nearest to [num / den]. *)
Definition f (num den : Z) : float := B64.div (B64.of_Z num) (B64.of_Z den).

(** Three noisy spectra of two channels and their clean versions. *)
Definition noisy3 : list spectrum := [[f 1 1; f 2 1]; [f 3 1; f 5 1]; [f 1 2; f 1 4]].
Definition clean3 : list spectrum := [[f 1 1; f 2 1]; [f 3 1; f 4 1]; [f 1 2; f 1 2]].

(** Spectra without any variation. *)
Definition flat3 : list spectrum := [[f 1 1; f 1 1]; [f 1 1; f 1 1]; [f 1 1; f 1 1]].

(** Validation losses 4, 2, 3, 3, ...: two improvements, then none. *)
Definition script_early (k : nat) : float :=
  match k with
  | 1%nat => B32.of_Z 8
  | 2%nat => B32.of_Z 4
  | _ => B32.of_Z 6
  end.

(** Validation losses 4, NaN, 2, 3, 3, ... *)
Definition script_nan (k : nat) : float :=
  match k with
  | 1%nat => B32.of_Z 8
  | 2%nat => nan
  | 3%nat => B32.of_Z 4
  | _ => B32.of_Z 6
  end.

(** Validation losses 100000, 100000, ... *)
Definition script_big (k : nat) : float := B32.of_Z 200000.

(** A network that outputs a tenth of the channel number, whatever
    its input: 0.1, 0.2, 0.3 on three channels. *)
Definition tenths : Externals :=
  {| rng_permutation := fun _ n => seq 0 n;
     rng_permutation_perm := fun _ n => Permutation_refl (seq 0 n);
     loader_perm := fun _ n => seq 0 n;
     loader_perm_perm := fun _ n => Permutation_refl (seq 0 n);
     np_sum := sum_left;
     peak_signal_noise_ratio := fun _ _ _ => B64.of_Z 0;
     weights := nat;
     optim := unit;
     init_weights := fun _ _ _ => O;
     forward := fun _ _ _ _ x =>
       map (map (fun row =>
         imap (fun i _ => B32.of_float (f (Z.of_nat (S i)) 10)) row)) x;
     criterion := fun preds _ => first_entry preds;
     adam := fun _ _ => tt;
     optim_step := fun _ _ k o _ _ => (S k, o);
     scheduler_step := fun o _ => o |}.

(** The metadata of a checkpoint, as [denoise.py] reads it. *)
Definition metadata (model_name model_type : string) : pyval :=
  PyDict (<["model" :=
    PyDict (<["num_channels" := PyInt 1]>
           (<["num_layers" := PyInt 20]>
           (<["kernel_size" := PyInt 3]>
           (<["stride" := PyInt 1]>
           (<["num_filters" := PyInt 64]>
           (<["train_mean" := PyFloat (f 1 2)]>
           (<["train_std" := PyFloat (f 1 4)]>
           (<["train_seed" := PyInt 42]>
           (<["model_name" := PyStr model_name]>
           (<["model_type" := PyStr model_type]> ∅))))))))))]> ∅).

(** A checkpoint: the weights and the metadata next to them. *)
Definition checkpoint_files `{E : Externals} (w : weights)
    (model_name model_type : string) : gmap string file :=
  <["models/best_model.pt" := FWeights w]>
  (<["models/best_model.npy" := FPickle (metadata model_name model_type)]> ∅).

(** The value of a result, or [d] when it is an exception. *)
Definition unwrap {A : Type} (d : A) (r : result A) : A :=
  match r with
  | Ok a => a
  | Raise _ => d
  end.

Definition nothing_prepared `{E : Externals} : Train.prepared :=
  let no_loader := {| dataset := []; bs := O; shuffle := false |} in
  {| Train.train_mean := nan; Train.train_std := nan;
     Train.x_train := []; Train.x_val := [];
     Train.y_train := []; Train.y_val := [];
     Train.train_loader := no_loader; Train.val_loader := no_loader |}.

(** What [main] prepares from a command line and a world. *)
Definition prepared_of `{E : Externals} (args : TrainArgs.t) (w : world)
  : Train.prepared :=
  unwrap nothing_prepared (Train.prepare args w).

(** The first [n] epochs of the scripted network. *)
Definition epochs_of (script : nat -> float) (args : TrainArgs.t) (w : world)
    (n : nat) : list Train.epoch_stats * (nat * unit) :=
  let p := prepared_of (E := externals script) args w in
  unwrap ([], (O, tt))
    (learning (E := externals script) args
       (Train.train_loader p) (Train.val_loader p) n O (O, tt)).

(** The runs of [train.py] that the examples use: three spectra, one
    device, ten epochs at most and a patience of one epoch. *)
Definition world3 : world := a_world noisy3 clean3.
Definition args1 : TrainArgs.t := train_args 10 1.

Definition early_externals : Externals := externals script_early.

Definition early_run : result (Z * gmap string file) :=
  Train.main (E := early_externals) args1 world3 ∅.

(** The same run on spectra without variation. *)
Definition flat_world : world := a_world flat3 flat3.
Definition flat_split : tensor * tensor * tensor * tensor :=
  unwrap ([], [], [], []) (Train.load_and_split (E := early_externals) args1 flat_world).
Definition flat_run : result (Z * gmap string file) :=
  Train.main (E := early_externals) args1 flat_world ∅.

Definition nan_externals : Externals := externals script_nan.
Definition nan_prepared : Train.prepared := prepared_of (E := nan_externals) args1 world3.
Definition nan_run : result (Z * gmap string file) :=
  Train.main (E := nan_externals) args1 world3 ∅.

Definition big_externals : Externals := externals script_big.
Definition big_run : result (Z * gmap string file) :=
  Train.main (E := big_externals) args1 world3 ∅.

(** The binary32 number nearest to [num / den]. *)
Definition f32 (num den : Z) : float := B32.of_float (f num den).

(** Three epochs with a patience of five, and ten epochs with a
    patience of minus one. *)
Definition args_all : TrainArgs.t := train_args 3 5.
Definition all_run : result (Z * gmap string file) :=
  Train.main (E := early_externals) args_all world3 ∅.
Definition args_impatient : TrainArgs.t := train_args 10 (-1).
Definition impatient_run : result (Z * gmap string file) :=
  Train.main (E := early_externals) args_impatient world3 ∅.

(** No epoch at all. *)
Definition args_none : TrainArgs.t := train_args 0 1.
Definition none_run : result (Z * gmap string file) :=
  Train.main (E := early_externals) args_none world3 ∅.



(** Twelve examples of three channels, the first of them 1, 2, 3; the
    validation part of the identity split holds the first two. *)
Definition noisy12 : list spectrum :=
  [f 1 1; f 2 1; f 3 1] :: [f 2 1; f 2 1; f 2 1] :: repeat [f 1 1; f 1 1; f 1 1] 10.
Definition world12 : world := a_world noisy12 noisy12.

(** Twelve other examples, and the split of the first twelve with the
    seed 42. *)
Definition other12 : list spectrum := repeat [f 7 1; f 8 1; f 9 1] 12.
Definition split12 : tensor * tensor * tensor * tensor :=
  unwrap ([], [], [], [])
    (train_test_split (E := tenths) (expand_dims noisy12) (expand_dims noisy12) (PyInt 42)).

(** The split of the first twelve as inputs and the other twelve as
    targets. *)
Definition pairs12 : tensor * tensor * tensor * tensor :=
  unwrap ([], [], [], [])
    (train_test_split (E := tenths) (expand_dims noisy12) (expand_dims other12) (PyInt 42)).

(** [denoise.py] with its default command line on a checkpoint whose
    metadata names the given model and model type. *)
Definition denoise_run (model_name model_type : string) : result Denoise.output :=
  Denoise.main (E := tenths) (denoise_args None "models/best_model.pt") world12
    (checkpoint_files (E := tenths) O model_name model_type).

(** The same with a seed on the command line. *)
Definition denoise_run_seeded (seed : option Z) : result Denoise.output :=
  Denoise.main (E := tenths) (denoise_args seed "models/best_model.pt") world12
    (checkpoint_files (E := tenths) O "DnCNN" "Gen-spectrum").

(** Metadata parameters that hold a training seed only. *)
Definition example_seed_params (seed : Z) : pyval :=
  PyDict (<["train_seed" := PyInt seed]> ∅).

Definition unwrap_output (r : result Denoise.output) : option Denoise.output :=
  match r with
  | Ok out => Some out
  | Raise _ => None
  end.

(** The output of the run on a ['DnCNN'] checkpoint of type
    ['Gen-spectrum'], and of the same run with [--all]. *)
Definition no_output : Denoise.output :=
  {| Denoise.exit_status := -1; Denoise.used_seed := None;
     Denoise.denoised_spectra := []; Denoise.saved := None;
     Denoise.avg_psnr_noisy := nan; Denoise.avg_psnr_denoised := nan |}.
Definition denoise_out : Denoise.output :=
  unwrap no_output (denoise_run "DnCNN" "Gen-spectrum").
Definition denoise_all_args : DenoiseArgs.t :=
  {| DenoiseArgs.dettype := "HPGe";
     DenoiseArgs.test_set := "data/training.h5";
     DenoiseArgs.all := true;
     DenoiseArgs.batch_size := 5;
     DenoiseArgs.seed := None;
     DenoiseArgs.model := "models/best_model.pt";
     DenoiseArgs.outdir := None;
     DenoiseArgs.outfile := "denoised.h5";
     DenoiseArgs.savefigs := false |}.
Definition denoise_all_run : result Denoise.output :=
  Denoise.main (E := tenths) denoise_all_args world12
    (checkpoint_files (E := tenths) O "DnCNN" "Residual-spectrum").
Definition denoise_all_out : Denoise.output := unwrap no_output denoise_all_run.

(** The batch of the example of the specification: noisy 1, 2, 3 and a
    network output of 0.1, 0.2, 0.3. *)
Definition example_noisy : tensor := [[[f32 1 1; f32 2 1; f32 3 1]]].
Definition example_clean : tensor := [[[f32 1 1; f32 2 1; f32 2 1]]].
Definition no_totals : Denoise.totals :=
  {| Denoise.total_psnr_noisy := B64.of_Z 0;
     Denoise.total_psnr_denoised := B64.of_Z 0;
     Denoise.denoised := [] |}.
Definition example_hyper : hyper :=
  {| h_num_channels := PyInt 1; h_num_layers := PyInt 20; h_kernel_size := PyInt 3;
     h_stride := PyInt 1; h_num_filters := PyInt 64 |}.
Definition example_params (model_type : string) : pyval :=
  PyDict (<["model_type" := PyStr model_type]> ∅).

(** The body of the denoising loop on that batch, for a residual model,
    and what [train.py] prepares with the same collaborators. *)
Definition example_totals : Denoise.totals :=
  unwrap no_totals
    (Denoise.denoise_batch (E := tenths) DnCNN example_hyper O
       (example_params "Residual-spectrum") (PyFloat (f 1 2)) (PyFloat (f 1 4))
       no_totals (example_noisy, example_clean)).
End Scripted.

(** * Properties *)

(** ** Sequencing *)

Lemma bind_Ok {A B : Type} (r : result A) (k : A -> result B) (b : B) :
  (x ← r; k x) = Ok b -> exists a, r = Ok a /\ k a = Ok b.
Proof. destruct r as [a|e]; simpl; [eauto | discriminate]. Qed.

Lemma bind_Raise {A B : Type} (r : result A) (k : A -> result B) (e : exn) :
  (x ← r; k x) = Raise e ->
  r = Raise e \/ exists a, r = Ok a /\ k a = Raise e.
Proof. destruct r as [a|e']; simpl; [eauto | intros [= ->]; auto]. Qed.

(** Splits a hypothesis [(x ← r; k) = Ok b] into its two steps. *)
Ltac bind_inv H :=
  let a := fresh "a" in
  let Ha := fresh "Hstep" in
  apply bind_Ok in H; destruct H as (a & Ha & H).

(** Splits [(x ← r; k) = Ok b], naming the value and the equation of [r]. *)
Ltac bind_as H a Ha := apply bind_Ok in H; destruct H as (a & Ha & H).

(** ** Batches *)

Lemma chunks_fuel_nonempty {A : Type} (fuel bs : nat) (l : list A) :
  (0 < bs)%nat -> Forall (fun c => c <> []) (chunks_fuel fuel bs l).
Proof.
  intros Hbs. revert l. induction fuel as [|fuel IH]; intros l; simpl.
  - constructor.
  - destruct l as [|x l]; [constructor|].
    constructor; [|apply IH].
    destruct bs as [|bs]; [lia|]. discriminate.
Qed.

Lemma chunks_nonempty {A : Type} (bs : nat) (l : list A) :
  l <> [] -> chunks bs l <> [].
Proof. destruct l; [congruence|]. discriminate. Qed.

Lemma loader_len_nonzero `{E : Externals} (l : loader) :
  dataset l <> [] -> loader_len l <> 0.
Proof.
  intros H. unfold loader_len, len.
  pose proof (chunks_nonempty (bs l) _ H) as Hc.
  destruct (chunks (bs l) (dataset l)); [congruence|]. simpl. lia.
Qed.

Section Totality.
Context `{E : Externals}.

Lemma psnr_of_batch_Ok (clean_imgs denoised_imgs : tensor) :
  clean_imgs <> [] -> exists p, psnr_of_batch clean_imgs denoised_imgs = Ok p.
Proof.
  intros H. unfold psnr_of_batch, py_div.
  destruct clean_imgs as [|ex t]; [congruence|].
  simpl. unfold len. simpl.
  destruct (Z.eqb_spec (Z.pos (Pos.of_succ_nat (length t))) 0); [lia|eauto].
Qed.

Lemma val_batches_Ok (args : TrainArgs.t) (w : weights) (bs : list batch) :
  Forall (fun b : batch => b.2 <> []) bs ->
  forall acc, exists r, for_each bs (Train.val_batch args w) acc = Ok r.
Proof.
  induction 1 as [|[noisy clean] bs Hb _ IH]; intros [vl ps]; simpl.
  - eauto.
  - simpl in Hb.
    destruct (psnr_of_batch_Ok (to_f32 clean)
                (to_f32 (forward DnCNN (Train.hyper_of args) false w noisy)))
      as [p Hp].
    { unfold to_f32, tmap. destruct clean; [congruence|discriminate]. }
    rewrite Hp. simpl. apply IH.
Qed.

Lemma ordered_batches_nonempty (l : loader) (epoch : nat) :
  shuffle l = false -> (0 < bs l)%nat ->
  Forall (fun b : batch => b.2 <> []) (batches l epoch).
Proof.
  intros Hs Hbs. unfold batches. rewrite Hs.
  apply List.Forall_forall. intros b Hin.
  apply in_map_iff in Hin. destruct Hin as (c & <- & Hc).
  pose proof (chunks_fuel_nonempty (length (dataset l)) (bs l) (dataset l) Hbs) as HF.
  rewrite List.Forall_forall in HF. specialize (HF c Hc).
  destruct c; [congruence|discriminate].
Qed.

(** An epoch raises nothing when the two loaders have examples. *)
Lemma learn_total (args : TrainArgs.t) (tl vl : loader) (epoch : nat)
    (wo : weights * optim) :
  dataset tl <> [] -> dataset vl <> [] ->
  shuffle vl = false -> (0 < bs vl)%nat ->
  exists s wo', Train.learn args tl vl epoch wo = Ok (s, wo').
Proof.
  intros Htl Hvl Hs Hbs. unfold Train.learn.
  destruct (fold_left _ _ _) as [train_loss [w o]].
  destruct (val_batches_Ok args w _ (ordered_batches_nonempty vl epoch Hs Hbs)
              (B64.of_Z 0, B64.of_Z 0)) as [[vloss ps] Hv].
  rewrite Hv. simpl. unfold py_div.
  destruct (Z.eqb_spec (loader_len tl) 0) as [H0|_].
  { exfalso. revert H0. now apply loader_len_nonzero. }
  simpl.
  destruct (Z.eqb_spec (loader_len vl) 0) as [H0|_].
  { exfalso. revert H0. now apply loader_len_nonzero. }
  simpl. eauto.
Qed.

(** The training loop runs to its end or to its [break], whatever the
    losses are. *)
Lemma train_loop_total (args : TrainArgs.t) (tl vl : loader) :
  dataset tl <> [] -> dataset vl <> [] ->
  shuffle vl = false -> (0 < bs vl)%nat ->
  forall todo epoch st, exists st', Train.train_loop args tl vl todo epoch st = Ok st'.
Proof.
  intros Htl Hvl Hs Hbs.
  induction todo as [|todo IH]; intros epoch st; simpl.
  - eauto.
  - unfold Train.run_epoch.
    destruct (learn_total args tl vl epoch (Train.net st, Train.opt st)
                Htl Hvl Hs Hbs) as (s & wo & Hl).
    rewrite Hl. simpl.
    destruct (_ <? _); [eauto | apply IH].
Qed.
End Totality.

(** ** The training loop *)

Section Loop.
Context `{E : Externals}.
Variable args : TrainArgs.t.
Variables tl vl : loader.

Lemma learning_length n : forall epoch wo ss wo',
  learning args tl vl n epoch wo = Ok (ss, wo') -> length ss = n.
Proof.
  induction n as [|n IH]; intros epoch wo ss wo' H; simpl in H.
  - now inversion H.
  - bind_inv H. destruct a as [s wo1]. bind_inv H. destruct a as [ss1 wo2].
    inversion H; subst. simpl. f_equal. eauto.
Qed.

Lemma extend_history_model ss : forall h,
  Train.model (extend_history h ss) = Train.model h.
Proof. induction ss as [|s ss IH]; intros h; simpl; [easy|]. now rewrite IH. Qed.

Lemma extend_history_val ss : forall h,
  Train.val (extend_history h ss) = (Train.val h ++ map Train.epoch_val_loss ss)%list.
Proof.
  induction ss as [|s ss IH]; intros h; simpl.
  - now rewrite app_nil_r.
  - rewrite IH. simpl. now rewrite <- app_assoc.
Qed.

Lemma extend_history_train ss : forall h,
  Train.train (extend_history h ss) = (Train.train h ++ map Train.epoch_train_loss ss)%list.
Proof.
  induction ss as [|s ss IH]; intros h; simpl.
  - now rewrite app_nil_r.
  - rewrite IH. simpl. now rewrite <- app_assoc.
Qed.

Lemma extend_history_psnr ss : forall h,
  Train.psnr (extend_history h ss) = (Train.psnr h ++ map Train.epoch_psnr ss)%list.
Proof.
  induction ss as [|s ss IH]; intros h; simpl.
  - now rewrite app_nil_r.
  - rewrite IH. simpl. now rewrite <- app_assoc.
Qed.

(** The two outcomes of the checkpoint decision. *)
Lemma checkpoint_improved st s wo :
  B64.ltb (Train.epoch_val_loss s) (Train.best_val_loss st) = true ->
  Train.checkpoint args st s wo =
    {| Train.net := wo.1; Train.opt := wo.2;
       Train.best_val_loss := Train.epoch_val_loss s;
       Train.best_psnr := Train.best_psnr st;
       Train.epochs_since_improvement := 0;
       Train.hist := Train.record_epoch (Train.hist st) s;
       Train.files :=
         <[path_join (TrainArgs.model_dir args) "best_model.npy" :=
             FPickle (Train.pickle (Train.record_epoch (Train.hist st) s))]>
         (<[path_join (TrainArgs.model_dir args) "best_model.pt" := FWeights wo.1]>
            (Train.files st)) |}.
Proof. intros H. unfold Train.checkpoint. now rewrite H. Qed.

Lemma checkpoint_stalled st s wo :
  B64.ltb (Train.epoch_val_loss s) (Train.best_val_loss st) = false ->
  Train.checkpoint args st s wo =
    {| Train.net := wo.1; Train.opt := wo.2;
       Train.best_val_loss := Train.best_val_loss st;
       Train.best_psnr := Train.best_psnr st;
       Train.epochs_since_improvement := Train.epochs_since_improvement st + 1;
       Train.hist := Train.record_epoch (Train.hist st) s;
       Train.files := Train.files st |}.
Proof. intros H. unfold Train.checkpoint. now rewrite H. Qed.



End Loop.

(** ** Paths of the artifacts *)

Lemma append_inj_l (d x y : string) : d +:+ x = d +:+ y -> x = y.
Proof. induction d as [|c d IH]; simpl; [easy|]. intros [= H]. auto. Qed.

Lemma path_join_inj (d f g : string) :
  String.prefix "/" f = false -> String.prefix "/" g = false ->
  path_join d f = path_join d g -> f = g.
Proof.
  unfold path_join. intros -> ->.
  destruct (String.eqb d ""); [easy|].
  destruct (last_is_slash d); intros H; apply append_inj_l in H; [easy|].
  now apply append_inj_l in H.
Qed.

Lemma final_paths_differ (d : string) :
  path_join d "final_model.npy" <> path_join d "final_model.pt".
Proof. intros H. apply path_join_inj in H; [discriminate | reflexivity | reflexivity]. Qed.

Section FinalCheckpoint.
Context `{E : Externals}.

Lemma save_final_npy (args : TrainArgs.t) (st : Train.state) :
  Train.save_final args st !! path_join (TrainArgs.model_dir args) "final_model.npy"
  = Some (FPickle (Train.pickle (Train.hist st))).
Proof. unfold Train.save_final. apply lookup_insert_eq. Qed.

Lemma save_final_pt (args : TrainArgs.t) (st : Train.state) :
  Train.save_final args st !! path_join (TrainArgs.model_dir args) "final_model.pt"
  = Some (FWeights (Train.net st)).
Proof.
  unfold Train.save_final.
  rewrite lookup_insert_ne by apply final_paths_differ.
  apply lookup_insert_eq.
Qed.

(** [main] is the preparation, the loop and the final save. *)
Lemma main_Ok (args : TrainArgs.t) (w : world) (fs : gmap string file)
    (p : Train.prepared) (st : Train.state) :
  Train.prepare args w = Ok p ->
  Train.train_loop args (Train.train_loader p) (Train.val_loader p)
    (Z.to_nat (TrainArgs.epochs args)) O (Train.init_state args p fs) = Ok st ->
  Train.main args w fs = Ok (0, Train.save_final args st).
Proof. intros Hp Hl. unfold Train.main. rewrite Hp. simpl. now rewrite Hl. Qed.
End FinalCheckpoint.




(** ** The exceptions of train.py *)

Section TrainExceptions.
Context `{E : Externals}.

Lemma py_assert_raises (c : bool) (msg : string) (e : exn) :
  py_assert c msg = Raise e -> e = AssertionError msg.
Proof. unfold py_assert. destruct c; congruence. Qed.

Lemma np_random_seed_int_raises (z : Z) (e : exn) :
  np_random_seed (PyInt z) = Raise e -> e = ValueError.
Proof. simpl. destruct (_ && _); congruence. Qed.

Lemma train_test_split_int_raises (a b : tensor) (z : Z) (e : exn) :
  train_test_split a b (PyInt z) = Raise e -> e = ValueError.
Proof.
  unfold train_test_split.
  destruct (negb _); [congruence|].
  destruct (_ =? _)%nat; [congruence|].
  intros H. apply bind_Raise in H. destruct H as [H | (s & _ & H)].
  - now apply np_random_seed_int_raises in H.
  - destruct (split_indices _ _). discriminate.
Qed.

Lemma DataLoader_raises ds (batch_size : Z) (sh : bool) (e : exn) :
  DataLoader ds batch_size sh = Raise e -> e = ValueError.
Proof. unfold DataLoader. destruct (_ <=? _); congruence. Qed.

Lemma py_div_raises (x : float) (n : Z) (e : exn) :
  py_div x n = Raise e -> e = ZeroDivisionError.
Proof. unfold py_div. destruct (_ =? _); congruence. Qed.

Lemma val_batches_raise (args : TrainArgs.t) (w : weights) (e : exn) (bs : list batch) :
  forall acc, for_each bs (Train.val_batch args w) acc = Raise e -> e = ZeroDivisionError.
Proof.
  induction bs as [|[noisy clean] bs IH]; intros [vl ps] H; simpl in H; [discriminate|].
  apply bind_Raise in H. destruct H as [H | (acc' & _ & H)]; [|eauto].
  apply bind_Raise in H. destruct H as [H | (p & _ & H)]; [|discriminate].
  now apply py_div_raises in H.
Qed.

Lemma learn_raises (args : TrainArgs.t) (tl vl : loader) (epoch : nat)
    (wo : weights * optim) (e : exn) :
  Train.learn args tl vl epoch wo = Raise e -> e = ZeroDivisionError.
Proof.
  unfold Train.learn. destruct (fold_left _ _ _) as [train_loss [w o]].
  intros H. apply bind_Raise in H. destruct H as [H | ([vloss ps] & _ & H)].
  { now apply val_batches_raise in H. }
  apply bind_Raise in H. destruct H as [H | (t & _ & H)].
  { now apply py_div_raises in H. }
  apply bind_Raise in H. destruct H as [H | (v & _ & H)]; [|discriminate].
  now apply py_div_raises in H.
Qed.

Lemma train_loop_raises (args : TrainArgs.t) (tl vl : loader) (e : exn) :
  forall todo epoch st,
    Train.train_loop args tl vl todo epoch st = Raise e -> e = ZeroDivisionError.
Proof.
  induction todo as [|todo IH]; intros epoch st H; simpl in H; [discriminate|].
  apply bind_Raise in H. destruct H as [H | (st' & _ & H)].
  - unfold Train.run_epoch in H.
    apply bind_Raise in H. destruct H as [H | ([s wo] & _ & H)]; [|discriminate].
    now apply learn_raises in H.
  - destruct (_ <? _); [discriminate | eauto].
Qed.

Lemma load_and_split_raises (args : TrainArgs.t) (w : world) (e : exn) :
  Train.load_and_split args w = Raise e -> raised_by_train e.
Proof.
  unfold Train.load_and_split. intros H.
  apply bind_Raise in H. destruct H as [H | (_ & _ & H)].
  { apply py_assert_raises in H. now subst. }
  apply bind_Raise in H. destruct H as [H | (_ & _ & H)].
  { apply py_assert_raises in H. now subst. }
  apply bind_Raise in H. destruct H as [H | (_ & _ & H)].
  { apply np_random_seed_int_raises in H. now subst. }
  apply train_test_split_int_raises in H. now subst.
Qed.

Lemma prepare_raises (args : TrainArgs.t) (w : world) (e : exn) :
  Train.prepare args w = Raise e -> raised_by_train e.
Proof.
  unfold Train.prepare. intros H.
  apply bind_Raise in H. destruct H as [H | ([[[xt xv] yt] yv] & _ & H)].
  { now apply load_and_split_raises in H. }
  apply bind_Raise in H. destruct H as [H | (tl & _ & H)].
  { apply DataLoader_raises in H. now subst. }
  apply bind_Raise in H. destruct H as [H | (vl & _ & H)]; [|discriminate].
  apply DataLoader_raises in H. now subst.
Qed.

(** Whatever the data and the network, [main] ends normally, with a
    failed assertion, a [ValueError] or a [ZeroDivisionError]. *)
Lemma main_raises (args : TrainArgs.t) (w : world) (fs : gmap string file) (e : exn) :
  Train.main args w fs = Raise e -> raised_by_train e.
Proof.
  unfold Train.main. intros H.
  apply bind_Raise in H. destruct H as [H | (p & _ & H)].
  { now apply prepare_raises in H. }
  apply bind_Raise in H. destruct H as [H | (st & _ & H)]; [|discriminate].
  apply train_loop_raises in H. now subst.
Qed.
End TrainExceptions.

(** ** Non-finite losses *)

Lemma nan_never_improves (v best : float) :
  is_nan v = true -> B64.ltb v best = false.
Proof. destruct v; simpl; try discriminate. reflexivity. Qed.

(** C3, as amended.  A non-finite loss does not abort the run.  When the
    two loaders have examples, [main] returns normally whatever the
    losses are, with the final checkpoint written, and it never raises
    [NumericalDivergenceError]; an epoch whose validation loss is NaN is
    counted as an epoch without improvement: the best loss and the stored
    artifacts stay as they are and the counter goes up by one. *)
Theorem non_finite_loss_is_not_fatal `{E : Externals}
    (args : TrainArgs.t) (w : world) (fs : gmap string file) (p : Train.prepared) :
  Train.prepare args w = Ok p ->
  dataset (Train.train_loader p) <> [] ->
  dataset (Train.val_loader p) <> [] ->
  (exists fs',
     Train.main args w fs = Ok (0, fs') /\
     is_Some (fs' !! path_join (TrainArgs.model_dir args) "final_model.pt") /\
     is_Some (fs' !! path_join (TrainArgs.model_dir args) "final_model.npy")) /\
  Train.main args w fs <> Raise NumericalDivergenceError /\
  (forall st s wo,
     is_nan (Train.epoch_val_loss s) = true ->
     let st' := Train.checkpoint args st s wo in
     Train.best_val_loss st' = Train.best_val_loss st /\
     Train.epochs_since_improvement st' = Train.epochs_since_improvement st + 1 /\
     Train.files st' = Train.files st /\
     Train.val (Train.hist st') = (Train.val (Train.hist st) ++ [Train.epoch_val_loss s])%list).
Proof.
  intros Hp Htl Hvl.
  assert (Hval : shuffle (Train.val_loader p) = false /\ (0 < bs (Train.val_loader p))%nat).
  { unfold Train.prepare in Hp. bind_inv Hp. destruct a as [[[xt xv] yt] yv].
    bind_inv Hp. bind_inv Hp. inversion Hp; subst p; simpl.
    unfold DataLoader in Hstep1.
    destruct (Z.leb_spec (TrainArgs.batch_size args) 0); [discriminate|].
    inversion Hstep1; subst; simpl. split; [reflexivity | lia]. }
  destruct Hval as [Hs Hbs].
  destruct (train_loop_total args _ _ Htl Hvl Hs Hbs
              (Z.to_nat (TrainArgs.epochs args)) O (Train.init_state args p fs))
    as [st Hloop].
  split; [|split].
  - exists (Train.save_final args st).
    split; [now apply main_Ok with p|].
    rewrite save_final_pt, save_final_npy. split; eauto.
  - rewrite (main_Ok args w fs p st Hp Hloop). discriminate.
  - intros st1 s wo Hnan.
    rewrite (checkpoint_stalled args st1 s wo (nan_never_improves _ _ Hnan)).
    simpl. auto.
Qed.

Lemma non_finite_loss_is_not_fatal_witness :
  exists fs',
    Train.main (E := Scripted.nan_externals) Scripted.args1 Scripted.world3 ∅
      = Ok (0, fs') /\
    is_Some (fs' !! path_join (TrainArgs.model_dir Scripted.args1) "final_model.pt") /\
    is_Some (fs' !! path_join (TrainArgs.model_dir Scripted.args1) "final_model.npy").
Proof.
  refine (proj1 (non_finite_loss_is_not_fatal (E := Scripted.nan_externals)
                   Scripted.args1 Scripted.world3 ∅ Scripted.nan_prepared _ _ _)).
  - vm_compute; reflexivity.
  - vm_compute; discriminate.
  - vm_compute; discriminate.
Defined.

(** C3 as stated fails.  The validation batch of the second epoch has
    the loss NaN; the run is not aborted: the epoch is recorded, the
    third epoch improves on the first one, and [main] returns 0 after five
    epochs, the NaN in the final history and the weights of the third
    epoch as the best ones. *)
Lemma nan_loss_run_continues :
  match batches (E := Scripted.nan_externals) (Train.val_loader Scripted.nan_prepared) 1 with
  | [(x, y)] =>
      Train.loss_item (E := Scripted.nan_externals)
        (forward (Externals := Scripted.nan_externals) DnCNN
           (Train.hyper_of Scripted.args1) false 2%nat x) y x
      = nan
  | _ => False
  end /\
  exit_code Scripted.nan_run = Ok 0 /\
  Scripted.nan_run <> Raise NumericalDivergenceError /\
  stored_weights (artifacts Scripted.nan_run) "models/final_model.pt" = Some 5%nat /\
  stored_weights (artifacts Scripted.nan_run) "models/best_model.pt" = Some 3%nat /\
  exists h,
    stored_pickle (artifacts Scripted.nan_run) "models/final_model.npy"
      = Some (Train.pickle h) /\
    Train.val h = [B64.of_Z 4; nan; B64.of_Z 2; B64.of_Z 3; B64.of_Z 3].
Proof.
  split; [vm_compute; reflexivity|].
  assert (Hexit : exit_code Scripted.nan_run = Ok 0) by (vm_compute; reflexivity).
  split; [exact Hexit|].
  split; [intros Hr; rewrite Hr in Hexit; discriminate Hexit|].
  split; [vm_compute; reflexivity|].
  split; [vm_compute; reflexivity|].
  exists (extend_history
            (Train.hist (Train.init_state (E := Scripted.nan_externals)
                           Scripted.args1 Scripted.nan_prepared ∅))
            (Scripted.epochs_of Scripted.script_nan Scripted.args1 Scripted.world3 5).1).
  split; vm_compute; reflexivity.
Qed.

(** ** Reading a run back *)

Lemma run_is_Ok `{E : Externals} (r : result (Z * gmap string file)) (code : Z) :
  exit_code r = Ok code -> r = Ok (code, artifacts r).
Proof. destruct r as [[c fs]|e]; simpl; congruence. Qed.

(** ** The first epoch and the best checkpoint *)

(** C5 fails on the code.  The loop starts with [best_val_loss = 99999],
    not with an infinity.  The first epoch of this run has the finite
    validation loss 100000: it does not compare as an improvement, the
    counter goes to 1, and the run (two epochs, both at 100000) ends
    without any best checkpoint. *)
Theorem first_epoch_above_99999_is_not_saved :
  Train.best_val_loss
    (Train.init_state (E := Scripted.big_externals) Scripted.args1
       (Scripted.prepared_of (E := Scripted.big_externals) Scripted.args1 Scripted.world3) ∅)
    = B64.of_Z 99999 /\
  map Train.epoch_val_loss
      (Scripted.epochs_of Scripted.script_big Scripted.args1 Scripted.world3 1).1
    = [B64.of_Z 100000] /\
  is_finite (B64.of_Z 100000) = true /\
  B64.ltb (B64.of_Z 100000) (B64.of_Z 99999) = false /\
  exit_code Scripted.big_run = Ok 0 /\
  stored_weights (artifacts Scripted.big_run) "models/best_model.pt" = None /\
  stored_pickle (artifacts Scripted.big_run) "models/best_model.npy" = None /\
  stored_weights (artifacts Scripted.big_run) "models/final_model.pt" = Some 2%nat.
Proof.
  (repeat (split; [vm_compute; reflexivity|])).
  (vm_compute; reflexivity).
Qed.

(** ** The metadata that training writes *)

Lemma bind_fails {A B : Type} (r : result A) (k : A -> result B) :
  (forall a, r = Ok a -> exists e, k a = Raise e) ->
  exists e, (x ← r; k x) = Raise e.
Proof. destruct r as [a|e]; simpl; eauto. Qed.

Section Metadata.
Context `{E : Externals}.

Lemma checkpoint_model (args : TrainArgs.t) st s wo :
  Train.model (Train.hist (Train.checkpoint args st s wo)) = Train.model (Train.hist st).
Proof. unfold Train.checkpoint. now destruct (B64.ltb _ _). Qed.

Lemma train_loop_model (args : TrainArgs.t) (tl vl : loader) :
  forall todo epoch st st',
    Train.train_loop args tl vl todo epoch st = Ok st' ->
    Train.model (Train.hist st') = Train.model (Train.hist st).
Proof.
  induction todo as [|todo IH]; intros epoch st st' H; simpl in H.
  - now inversion H.
  - bind_inv H. unfold Train.run_epoch in Hstep.
    bind_inv Hstep. destruct a0 as [s wo]. inversion Hstep; subst a.
    destruct (_ <? _).
    + inversion H; subst st'. apply checkpoint_model.
    + rewrite (IH _ _ _ H). apply checkpoint_model.
Qed.

(** The keys of [model_params]: the five hyperparameters and the two
    standardization parameters. *)
Lemma model_params_keys (args : TrainArgs.t) (m s : float) :
  dom (Train.model_params args m s)
  = list_to_set ["num_channels"; "num_layers"; "kernel_size"; "stride";
                 "num_filters"; "train_mean"; "train_std"].
Proof. unfold Train.model_params. rewrite !dom_insert_L, dom_empty_L. set_solver. Qed.

(** The final metadata of a run is the pickled history, whose ["model"]
    entry is [model_params]. *)
Lemma main_final_metadata (args : TrainArgs.t) (w : world) (fs fs' : gmap string file)
    (code : Z) :
  Train.main args w fs = Ok (code, fs') ->
  exists h m s,
    fs' !! path_join (TrainArgs.model_dir args) "final_model.npy"
      = Some (FPickle (Train.pickle h)) /\
    Train.model h = Train.model_params args m s.
Proof.
  unfold Train.main. intros H. bind_inv H. bind_inv H. inversion H; subst code fs'.
  exists (Train.hist a0), (Train.train_mean a), (Train.train_std a).
  split; [apply save_final_npy|].
  now rewrite (train_loop_model _ _ _ _ _ _ _ Hstep0).
Qed.

(** [denoise.py] on metadata whose ["model"] entry is [model_params]:
    the run ends with an exception, at the latest when it looks up
    ["model_name"]. *)
Lemma denoise_on_model_params (dargs : DenoiseArgs.t) (dw : world)
    (fs : gmap string file) (args : TrainArgs.t) (h : Train.history) (m s : float) :
  fs !! str_replace (DenoiseArgs.model dargs) ".pt" ".npy" = Some (FPickle (Train.pickle h)) ->
  Train.model h = Train.model_params args m s ->
  exists e, Denoise.main dargs dw fs = Raise e.
Proof.
  intros Hfile Hmodel. unfold Denoise.main.
  apply bind_fails; intros _ _.
  apply bind_fails; intros _ _.
  apply bind_fails; intros history Hload.
  unfold Denoise.pickle_load in Hload. rewrite Hfile in Hload.
  inversion Hload; subst history; clear Hload.
  apply bind_fails; intros params Hparams.
  change (subscript (Train.pickle h) "model")
    with (Ok (A := pyval) (PyDict (Train.model h))) in Hparams.
  inversion Hparams; subst params; clear Hparams. rewrite Hmodel.
  apply bind_fails; intros train_mean _.
  apply bind_fails; intros train_std _.
  apply bind_fails; intros seed _.
  apply bind_fails; intros seed_used _.
  apply bind_fails; intros val_dataset _.
  apply bind_fails; intros val_loader _.
  apply bind_fails; intros net Hnet.
  unfold Denoise.create_model in Hnet.
  change (subscript (PyDict (Train.model_params args m s)) "model_name")
    with (Raise (A := pyval) (KeyError "model_name")) in Hnet.
  discriminate Hnet.
Qed.
End Metadata.

(** C1 fails on the code.  The metadata that a run of [train.py] leaves
    next to the final weights has a ["model"] entry with seven keys, none
    of them ["train_seed"], ["model_name"] or ["model_type"]; no run of
    [denoise.py] on that checkpoint returns: with no seed on the command
    line it stops at ["train_seed"], otherwise at ["model_name"] at the
    latest. *)
Theorem trained_metadata_lacks_inference_keys `{E : Externals}
    (args : TrainArgs.t) (w : world) (fs fs' : gmap string file) (code : Z) :
  Train.main args w fs = Ok (code, fs') ->
  exists h params,
    fs' !! path_join (TrainArgs.model_dir args) "final_model.npy" = Some (FPickle h) /\
    subscript h "model" = Ok (PyDict params) /\
    params !! "train_seed" = None /\
    params !! "model_name" = None /\
    params !! "model_type" = None /\
    forall (dargs : DenoiseArgs.t) (dw : world),
      str_replace (DenoiseArgs.model dargs) ".pt" ".npy"
        = path_join (TrainArgs.model_dir args) "final_model.npy" ->
      exists e, Denoise.main dargs dw fs' = Raise e.
Proof.
  intros Hmain.
  destruct (main_final_metadata args w fs fs' code Hmain) as (h & m & s & Hfile & Hmodel).
  exists (Train.pickle h), (Train.model h).
  split; [exact Hfile|].
  split; [reflexivity|].
  rewrite Hmodel.
  split; [reflexivity|]. split; [reflexivity|]. split; [reflexivity|].
  intros dargs dw Hpath.
  apply (denoise_on_model_params dargs dw fs' args h m s); [|exact Hmodel].
  now rewrite Hpath.
Qed.

Lemma trained_metadata_lacks_inference_keys_witness :
  exists h params,
    artifacts Scripted.early_run
      !! path_join (TrainArgs.model_dir Scripted.args1) "final_model.npy"
      = Some (FPickle h) /\
    subscript h "model" = Ok (PyDict params) /\
    params !! "train_seed" = None /\
    params !! "model_name" = None /\
    params !! "model_type" = None /\
    forall (dargs : DenoiseArgs.t) (dw : world),
      str_replace (DenoiseArgs.model dargs) ".pt" ".npy"
        = path_join (TrainArgs.model_dir Scripted.args1) "final_model.npy" ->
      exists e, Denoise.main (E := Scripted.early_externals) dargs dw
                  (artifacts Scripted.early_run) = Raise e.
Proof.
  apply (trained_metadata_lacks_inference_keys (E := Scripted.early_externals)
           Scripted.args1 Scripted.world3 ∅ (artifacts Scripted.early_run) 0).
  apply (run_is_Ok (E := Scripted.early_externals) Scripted.early_run 0).
  vm_compute; reflexivity.
Defined.

(** The default command line of [denoise.py] on the best checkpoint of a
    training run, and the same with a seed given. *)
Example denoise_rejects_trained_checkpoint :
  exit_code Scripted.early_run = Ok 0 /\
  stored_weights (artifacts Scripted.early_run) "models/best_model.pt" = Some 2%nat /\
  Denoise.main (E := Scripted.early_externals)
    (Scripted.denoise_args None "models/best_model.pt") Scripted.world3
    (artifacts Scripted.early_run)
  = Raise (KeyError "train_seed") /\
  Denoise.main (E := Scripted.early_externals)
    (Scripted.denoise_args (Some 42) "models/best_model.pt") Scripted.world3
    (artifacts Scripted.early_run)
  = Raise (KeyError "model_name").
Proof.
  (repeat (split; [vm_compute; reflexivity|])).
  (vm_compute; reflexivity).
Qed.

(** ** Standardization with a zero deviation *)

Lemma div_by_zero_not_finite (x s : float) :
  is_zero s = true -> is_finite (B64.div x s) = false.
Proof. destruct s; try discriminate. intros _. now destruct x. Qed.

Lemma flatten_tmap (g : float -> float) (t : tensor) :
  flatten (tmap g t) = map g (flatten t).
Proof.
  unfold flatten, tmap. now rewrite <- !List.concat_map.
Qed.

Lemma standardize_zero_std (x : tensor) (m s : float) :
  is_zero s = true ->
  Forall (fun v => is_finite v = false) (flatten (Train.standardize x m s)).
Proof.
  intros Hs. unfold Train.standardize. rewrite flatten_tmap.
  apply List.Forall_forall. intros v Hin. apply in_map_iff in Hin.
  destruct Hin as (u & <- & _). now apply div_by_zero_not_finite.
Qed.

Lemma len_setup_gpus (w : world) : len (setup_gpus w) = Z.of_nat (device_count w).
Proof. unfold len, setup_gpus. now rewrite length_seq. Qed.

(** C2, as amended.  [train.py] does not check the standard deviation.
    When the deviation computed from the training inputs is zero (and the
    batch size and the number of devices are positive), the preparation
    succeeds with that deviation, the standardization is applied with it,
    every standardized input is NaN or an infinity, and [main] never
    raises [InvalidParameterError]. *)
Theorem zero_std_is_applied `{E : Externals}
    (args : TrainArgs.t) (w : world) (xt xv yt yv : tensor) :
  Train.load_and_split args w = Ok (xt, xv, yt, yv) ->
  is_zero (np_std xt) = true ->
  0 < TrainArgs.batch_size args ->
  (0 < device_count w)%nat ->
  (exists p,
     Train.prepare args w = Ok p /\
     Train.train_std p = np_std xt /\
     Train.x_train p = Train.standardize xt (np_mean xt) (np_std xt) /\
     Forall (fun v => is_finite v = false) (flatten (Train.x_train p)) /\
     Forall (fun v => is_finite v = false) (flatten (Train.x_val p))) /\
  forall fs, Train.main args w fs <> Raise InvalidParameterError.
Proof.
  intros Hsplit Hstd Hbs Hdev. split.
  - unfold Train.prepare. rewrite Hsplit. cbn [mbind result_bind].
    unfold DataLoader. rewrite len_setup_gpus.
    destruct (Z.leb_spec (TrainArgs.batch_size args * Z.of_nat (device_count w)) 0); [nia|].
    cbn [mbind result_bind].
    destruct (Z.leb_spec (TrainArgs.batch_size args) 0); [lia|].
    cbn [mbind result_bind].
    eexists. split; [reflexivity|]. cbn [Train.train_std Train.x_train Train.x_val].
    split; [reflexivity|]. split; [reflexivity|].
    split; now apply standardize_zero_std.
  - intros fs H. now apply main_raises in H.
Qed.

Lemma zero_std_is_applied_witness :
  (exists p,
     Train.prepare (E := Scripted.early_externals) Scripted.args1 Scripted.flat_world = Ok p /\
     Train.train_std p = np_std (E := Scripted.early_externals) Scripted.flat_split.1.1.1 /\
     Train.x_train p
       = Train.standardize Scripted.flat_split.1.1.1
           (np_mean (E := Scripted.early_externals) Scripted.flat_split.1.1.1)
           (np_std (E := Scripted.early_externals) Scripted.flat_split.1.1.1) /\
     Forall (fun v => is_finite v = false) (flatten (Train.x_train p)) /\
     Forall (fun v => is_finite v = false) (flatten (Train.x_val p))) /\
  forall fs, Train.main (E := Scripted.early_externals) Scripted.args1 Scripted.flat_world fs
             <> Raise InvalidParameterError.
Proof.
  apply (zero_std_is_applied (E := Scripted.early_externals)
           Scripted.args1 Scripted.flat_world
           Scripted.flat_split.1.1.1 Scripted.flat_split.1.1.2
           Scripted.flat_split.1.2 Scripted.flat_split.2).
  - vm_compute; reflexivity.
  - vm_compute; reflexivity.
  - vm_compute; reflexivity.
  - vm_compute; lia.
Defined.

(** C2 as stated fails.  All training inputs are 1: their mean is 1 and
    their standard deviation is 0.  No error is raised: the inputs are
    standardized to NaN and [main] returns 0. *)
Lemma zero_std_run_is_not_rejected :
  np_mean (E := Scripted.early_externals) Scripted.flat_split.1.1.1 = B64.of_Z 1 /\
  np_std (E := Scripted.early_externals) Scripted.flat_split.1.1.1 = S754_zero false /\
  Train.train_std (Scripted.prepared_of (E := Scripted.early_externals)
                     Scripted.args1 Scripted.flat_world) = S754_zero false /\
  flatten (Train.x_train (Scripted.prepared_of (E := Scripted.early_externals)
                            Scripted.args1 Scripted.flat_world))
    = [nan; nan; nan; nan] /\
  exit_code Scripted.flat_run = Ok 0 /\
  Scripted.flat_run <> Raise InvalidParameterError.
Proof.
  assert (Hexit : exit_code Scripted.flat_run = Ok 0) by (vm_compute; reflexivity).
  repeat (split; [vm_compute; reflexivity|]).
  intros Hr. rewrite Hr in Hexit. discriminate Hexit.
Qed.

(** ** Reconstruction of the denoised signal *)

Lemma denoised_spectrum_gen (noisy preds : tensor) :
  Denoise.denoised_spectrum (PyStr "Gen-spectrum") noisy preds = preds.
Proof. reflexivity. Qed.

Lemma denoised_spectrum_other (tag : string) (noisy preds : tensor) :
  tag <> "Gen-spectrum" ->
  Denoise.denoised_spectrum (PyStr tag) noisy preds = tzip B32.sub noisy preds.
Proof.
  intros H. unfold Denoise.denoised_spectrum, py_eq_str.
  destruct (String.eqb_spec tag "Gen-spectrum"); [contradiction | reflexivity].
Qed.

Lemma to_f32_nonempty (t : tensor) : t <> [] -> to_f32 t <> [].
Proof. destruct t; [congruence | discriminate]. Qed.

(** C6.  In every batch of the denoising loop that has examples, with
    numeric standardization parameters and the stored model type [mt],
    the body of the loop returns and extends the denoised signals by the
    model output when [mt] is GenSpectrum and by the noisy input minus the
    model output, element by element, when [mt] is ResidualSpectrum. *)
Theorem denoised_follows_model_type `{E : Externals}
    (residual_tag : string) (mt : ModelType)
    (a : arch) (h : hyper) (w : weights) (params train_mean train_std : pyval)
    (m s : float) (acc : Denoise.totals) (noisy clean : tensor) :
  residual_tag <> "Gen-spectrum" ->
  subscript params "model_type" = Ok (stored_model_type residual_tag mt) ->
  as_scalar train_mean = Ok m ->
  as_scalar train_std = Ok s ->
  clean <> [] ->
  let model_output := to_f32 (forward a h false w (Denoise.standardize noisy m s)) in
  exists t,
    Denoise.denoise_batch a h w params train_mean train_std acc (noisy, clean) = Ok t /\
    Denoise.denoised t =
      (Denoise.denoised acc ++
       match mt with
       | GenSpectrum => model_output
       | ResidualSpectrum => tzip B32.sub (to_f32 noisy) model_output
       end)%list.
Proof.
  intros Htag Hmt Hm Hs Hclean model_output.
  unfold Denoise.denoise_batch. rewrite Hm, Hs. cbn [mbind result_bind].
  destruct (psnr_of_batch_Ok (to_f32 clean) (to_f32 noisy) (to_f32_nonempty _ Hclean))
    as [pn Hpn].
  rewrite Hpn. cbn [mbind result_bind]. rewrite Hmt. cbn [mbind result_bind].
  fold model_output.
  destruct (psnr_of_batch_Ok (to_f32 clean)
              (Denoise.denoised_spectrum (stored_model_type residual_tag mt)
                 (to_f32 noisy) model_output) (to_f32_nonempty _ Hclean))
    as [pd Hpd].
  rewrite Hpd. cbn [mbind result_bind].
  eexists. split; [reflexivity|]. cbn [Denoise.denoised]. f_equal.
  destruct mt; simpl stored_model_type.
  - apply denoised_spectrum_gen.
  - now apply denoised_spectrum_other.
Qed.

Lemma denoised_follows_model_type_witness :
  let model_output :=
    to_f32 (forward (Externals := Scripted.tenths) DnCNN Scripted.example_hyper false O
              (Denoise.standardize Scripted.example_noisy (Scripted.f 1 2) (Scripted.f 1 4))) in
  exists t,
    Denoise.denoise_batch (E := Scripted.tenths) DnCNN Scripted.example_hyper O
      (Scripted.example_params "Residual-spectrum")
      (PyFloat (Scripted.f 1 2)) (PyFloat (Scripted.f 1 4))
      Scripted.no_totals (Scripted.example_noisy, Scripted.example_clean) = Ok t /\
    Denoise.denoised t =
      (Denoise.denoised Scripted.no_totals
       ++ tzip B32.sub (to_f32 Scripted.example_noisy) model_output)%list.
Proof.
  apply (denoised_follows_model_type (E := Scripted.tenths)
           "Residual-spectrum" ResidualSpectrum DnCNN Scripted.example_hyper O
           (Scripted.example_params "Residual-spectrum")
           (PyFloat (Scripted.f 1 2)) (PyFloat (Scripted.f 1 4))
           (Scripted.f 1 2) (Scripted.f 1 4) Scripted.no_totals
           Scripted.example_noisy Scripted.example_clean).
  - discriminate.
  - vm_compute; reflexivity.
  - reflexivity.
  - reflexivity.
  - vm_compute; discriminate.
Defined.

(** The example of the specification, in binary32: noisy 1, 2, 3 and
    model output 0.1, 0.2, 0.3 give 0.1, 0.2, 0.3 for GenSpectrum and
    0.9, 1.8, 2.7 for a residual model. *)
Example reconstruction_example :
  let noisy := [[[Scripted.f32 1 1; Scripted.f32 2 1; Scripted.f32 3 1]]] in
  let model_output := [[[Scripted.f32 1 10; Scripted.f32 2 10; Scripted.f32 3 10]]] in
  Denoise.denoised_spectrum (stored_model_type "Residual-spectrum" GenSpectrum)
    noisy model_output = model_output /\
  Denoise.denoised_spectrum (stored_model_type "Residual-spectrum" ResidualSpectrum)
    noisy model_output
  = [[[Scripted.f32 9 10; Scripted.f32 18 10; Scripted.f32 27 10]]].
Proof. split; vm_compute; reflexivity. Qed.

(** ** Unrecognized model types *)

(** C7 fails on the code.  The reconstruction has two arms: the stored
    string ["Gen-spectrum"], and everything else.  On a checkpoint whose
    metadata names the model type ["Unknown-type"], [denoise.py] returns 0
    and reports the noisy input minus the model output as the denoised
    signal; no [UnsupportedModelType] is raised.  An unsupported model
    name, in contrast, is reported and ends the run with status 1. *)
Theorem unknown_model_type_is_read_as_residual :
  (forall (tag : string) (noisy preds : tensor),
     tag <> "Gen-spectrum" ->
     Denoise.denoised_spectrum (PyStr tag) noisy preds = tzip B32.sub noisy preds) /\
  Denoise.exit_status <$> Scripted.unwrap_output (Scripted.denoise_run "DnCNN" "Unknown-type") = Some 0 /\
  Scripted.denoise_run "DnCNN" "Unknown-type" <> Raise UnsupportedModelType /\
  Denoise.denoised_spectra <$> Scripted.unwrap_output (Scripted.denoise_run "DnCNN" "Unknown-type")
    = Some [[[Scripted.f32 9 10; Scripted.f32 18 10; Scripted.f32 27 10]];
            [[Scripted.f32 19 10; Scripted.f32 18 10; Scripted.f32 17 10]]] /\
  Denoise.exit_status <$> Scripted.unwrap_output (Scripted.denoise_run "VGG" "Gen-spectrum")
    = Some 1.
Proof.
  split; [intros tag noisy preds Htag; now apply denoised_spectrum_other|].
  assert (Hexit : Denoise.exit_status <$> Scripted.unwrap_output (Scripted.denoise_run "DnCNN" "Unknown-type") = Some 0)
    by (vm_compute; reflexivity).
  split; [exact Hexit|].
  split; [intros Hr; rewrite Hr in Hexit; discriminate Hexit|].
  split; vm_compute; reflexivity.
Qed.

(** ** The seed of an inference run *)

Lemma np_random_seed_int (z z' : Z) : np_random_seed (PyInt z) = Ok z' -> z' = z.
Proof. simpl. destruct (_ && _); congruence. Qed.

(** C9.  A seed of 0 on the command line of [denoise.py] is the same as
    no seed: in both cases the seed is read from the ["train_seed"]
    entry of the metadata, and the two runs are the same.  Every other
    seed of the command line is taken as it is, and a run that returns
    has used it. *)
Theorem zero_seed_is_no_seed `{E : Externals}
    (args : DenoiseArgs.t) (w : world) (fs : gmap string file)
    (params : pyval) (s : Z) :
  s <> 0 ->
  Denoise.resolve_seed (Some 0) params = subscript params "train_seed" /\
  Denoise.resolve_seed None params = subscript params "train_seed" /\
  Denoise.resolve_seed (Some s) params = Ok (PyInt s) /\
  Denoise.main (DenoiseArgs.with_seed args (Some 0)) w fs
    = Denoise.main (DenoiseArgs.with_seed args None) w fs /\
  forall out,
    Denoise.main (DenoiseArgs.with_seed args (Some s)) w fs = Ok out ->
    Denoise.used_seed out = Some s.
Proof.
  intros Hs.
  split; [reflexivity|]. split; [reflexivity|].
  split.
  { unfold Denoise.resolve_seed. destruct (Z.eqb_spec s 0); [contradiction | reflexivity]. }
  split; [reflexivity|].
  intros out H. unfold Denoise.main in H.
  bind_as H u1 H1. bind_as H u2 H2. bind_as H history H3. bind_as H prm H4.
  bind_as H train_mean H5. bind_as H train_std H6. bind_as H seed H7.
  cbn [DenoiseArgs.seed DenoiseArgs.with_seed] in H7.
  unfold Denoise.resolve_seed in H7.
  destruct (Z.eqb_spec s 0); [contradiction|]. inversion H7; subst seed.
  bind_as H seed_used H8. apply np_random_seed_int in H8. subst seed_used.
  bind_as H val_dataset H9. bind_as H val_loader H10. bind_as H net H11.
  destruct net as [[ar hy]|].
  - bind_as H n1 H12. bind_as H n2 H13. bind_as H wts H14. bind_as H t H15.
    bind_as H saved H16. bind_as H pn H17. bind_as H pd H18.
    now inversion H.
  - now inversion H.
Qed.

Lemma zero_seed_is_no_seed_witness :
  Denoise.resolve_seed (Some 0) (Scripted.example_seed_params 42)
    = subscript (Scripted.example_seed_params 42) "train_seed" /\
  Denoise.resolve_seed None (Scripted.example_seed_params 42)
    = subscript (Scripted.example_seed_params 42) "train_seed" /\
  Denoise.resolve_seed (Some 7) (Scripted.example_seed_params 42) = Ok (PyInt 7) /\
  Denoise.main (E := Scripted.tenths)
    (DenoiseArgs.with_seed (Scripted.denoise_args None "models/best_model.pt") (Some 0))
    Scripted.world12 (Scripted.checkpoint_files (E := Scripted.tenths) O "DnCNN" "Gen-spectrum")
  = Denoise.main (E := Scripted.tenths)
      (DenoiseArgs.with_seed (Scripted.denoise_args None "models/best_model.pt") None)
      Scripted.world12 (Scripted.checkpoint_files (E := Scripted.tenths) O "DnCNN" "Gen-spectrum") /\
  forall out,
    Denoise.main (E := Scripted.tenths)
      (DenoiseArgs.with_seed (Scripted.denoise_args None "models/best_model.pt") (Some 7))
      Scripted.world12 (Scripted.checkpoint_files (E := Scripted.tenths) O "DnCNN" "Gen-spectrum")
    = Ok out ->
    Denoise.used_seed out = Some 7.
Proof.
  apply (zero_seed_is_no_seed (E := Scripted.tenths)
           (Scripted.denoise_args None "models/best_model.pt") Scripted.world12
           (Scripted.checkpoint_files (E := Scripted.tenths) O "DnCNN" "Gen-spectrum")
           (Scripted.example_seed_params 42) 7).
  discriminate.
Defined.

(** The seeds that runs on one checkpoint (stored seed 42) have used. *)
Example seeds_used :
  Denoise.used_seed <$> Scripted.unwrap_output (Scripted.denoise_run_seeded None) = Some (Some 42) /\
  Denoise.used_seed <$> Scripted.unwrap_output (Scripted.denoise_run_seeded (Some 0)) = Some (Some 42) /\
  Denoise.used_seed <$> Scripted.unwrap_output (Scripted.denoise_run_seeded (Some 7)) = Some (Some 7).
Proof. repeat split; vm_compute; reflexivity. Qed.

(** ** The split *)

Section Split.
Context `{E : Externals}.

Lemma rng_permutation_length (seed : Z) (n : nat) : length (rng_permutation seed n) = n.
Proof.
  rewrite (Permutation_length (rng_permutation_perm seed n)). apply length_seq.
Qed.

(** The two index lists are the permutation, cut in two. *)
Lemma split_indices_app (n : nat) (seed : Z) :
  ((split_indices n seed).2 ++ (split_indices n seed).1)%list = rng_permutation seed n.
Proof.
  unfold split_indices. cbn [fst snd].
  rewrite (firstn_all2 (n := (n - n_test_of n)%nat)).
  - apply firstn_skipn.
  - rewrite length_skipn, rng_permutation_length. lia.
Qed.

Lemma train_test_split_Ok (a b : tensor) (seed : Z) r :
  train_test_split a b (PyInt seed) = Ok r ->
  length a = length b /\
  (length a - n_test_of (length a) =? 0)%nat = false /\
  np_random_seed (PyInt seed) = Ok seed /\
  r = (gather a (split_indices (length a) seed).1,
       gather a (split_indices (length a) seed).2,
       gather b (split_indices (length a) seed).1,
       gather b (split_indices (length a) seed).2).
Proof.
  unfold train_test_split.
  destruct (Nat.eqb_spec (length a) (length b)) as [Hlen|]; [|discriminate].
  simpl negb. cbv iota.
  destruct (_ =? 0)%nat eqn:Hn; [discriminate|].
  intros H. bind_as H z Hz. pose proof (np_random_seed_int _ _ Hz); subst z.
  destruct (split_indices (length a) seed) as [itr ite]. inversion H. auto.
Qed.
End Split.

(** C8.  The split is an index partition computed from the number of
    examples and the seed alone: the two index lists make up a
    permutation of the positions, a successful split returns the rows of
    its arrays at those positions, and on any other dataset of the same
    length the same seed succeeds with the same positions, in
    particular in [denoise.py], whose examples are the rows at the
    validation positions of the training-time split. *)
Theorem split_depends_on_size_and_seed `{E : Externals}
    (seed : Z) (noisy1 clean1 noisy2 clean2 : tensor)
    (r1 : tensor * tensor * tensor * tensor) (args : DenoiseArgs.t) :
  length noisy2 = length noisy1 ->
  length clean2 = length clean1 ->
  DenoiseArgs.all args = false ->
  train_test_split noisy1 clean1 (PyInt seed) = Ok r1 ->
  let ind_train := (split_indices (length noisy1) seed).1 in
  let ind_test := (split_indices (length noisy1) seed).2 in
  Permutation (ind_test ++ ind_train) (seq 0 (length noisy1)) /\
  r1 = (gather noisy1 ind_train, gather noisy1 ind_test,
        gather clean1 ind_train, gather clean1 ind_test) /\
  train_test_split noisy2 clean2 (PyInt seed)
    = Ok (gather noisy2 ind_train, gather noisy2 ind_test,
          gather clean2 ind_train, gather clean2 ind_test) /\
  Denoise.val_dataset args noisy2 clean2 (PyInt seed)
    = Ok (TensorDataset (to_f32 (gather noisy2 ind_test))
                        (to_f32 (gather clean2 ind_test))).
Proof.
  intros Hn Hc Hall H1 ind_train ind_test.
  apply train_test_split_Ok in H1. destruct H1 as (Hlen & Hne & Hseed & Hr).
  assert (H2 : train_test_split noisy2 clean2 (PyInt seed)
               = Ok (gather noisy2 ind_train, gather noisy2 ind_test,
                     gather clean2 ind_train, gather clean2 ind_test)).
  { unfold train_test_split. rewrite Hn, Hc, Hlen, Nat.eqb_refl.
    simpl negb. cbv iota. rewrite <- Hlen, Hne, Hseed. cbn [mbind result_bind].
    subst ind_train ind_test.
    now destruct (split_indices (length noisy1) seed). }
  split; [|split; [exact Hr | split; [exact H2|]]].
  - subst ind_train ind_test. rewrite split_indices_app. apply rng_permutation_perm.
  - unfold Denoise.val_dataset. rewrite Hall. simpl negb. cbv iota.
    rewrite H2. reflexivity.
Qed.

Lemma split_depends_on_size_and_seed_witness :
  let ind_train := (split_indices (E := Scripted.tenths) (length (expand_dims Scripted.noisy12)) 42).1 in
  let ind_test := (split_indices (E := Scripted.tenths) (length (expand_dims Scripted.noisy12)) 42).2 in
  Permutation (ind_test ++ ind_train) (seq 0 (length (expand_dims Scripted.noisy12))) /\
  Scripted.split12
  = (gather (expand_dims Scripted.noisy12) ind_train, gather (expand_dims Scripted.noisy12) ind_test,
     gather (expand_dims Scripted.noisy12) ind_train, gather (expand_dims Scripted.noisy12) ind_test) /\
  train_test_split (E := Scripted.tenths) (expand_dims Scripted.other12) (expand_dims Scripted.other12) (PyInt 42)
    = Ok (gather (expand_dims Scripted.other12) ind_train, gather (expand_dims Scripted.other12) ind_test,
          gather (expand_dims Scripted.other12) ind_train, gather (expand_dims Scripted.other12) ind_test) /\
  Denoise.val_dataset (E := Scripted.tenths) (Scripted.denoise_args None "models/best_model.pt")
    (expand_dims Scripted.other12) (expand_dims Scripted.other12) (PyInt 42)
    = Ok (TensorDataset (to_f32 (gather (expand_dims Scripted.other12) ind_test))
                        (to_f32 (gather (expand_dims Scripted.other12) ind_test))).
Proof.
  apply (split_depends_on_size_and_seed (E := Scripted.tenths) 42
           (expand_dims Scripted.noisy12) (expand_dims Scripted.noisy12)
           (expand_dims Scripted.other12) (expand_dims Scripted.other12)
           Scripted.split12 (Scripted.denoise_args None "models/best_model.pt")).
  - reflexivity.
  - reflexivity.
  - reflexivity.
  - vm_compute; reflexivity.
Defined.

(** ** Where the standardization is applied *)

Section DataFlow.
Context `{E : Externals}.

Lemma DataLoader_Ok ds (batch_size : Z) (sh : bool) (l : loader) :
  DataLoader ds batch_size sh = Ok l ->
  dataset l = ds /\ shuffle l = sh /\ (0 < bs l)%nat.
Proof.
  unfold DataLoader. destruct (Z.leb_spec batch_size 0); [discriminate|].
  intros [= <-]. simpl. repeat split. lia.
Qed.

End DataFlow.



(** The denoised signal of that batch: 1 - 0.1, 2 - 0.2, 3 - 0.3 on the
    noisy values themselves, not on standardized ones. *)
Example residual_on_raw_scale :
  Denoise.denoised Scripted.example_totals
  = [[[Scripted.f32 9 10; Scripted.f32 18 10; Scripted.f32 27 10]]].
Proof. vm_compute; reflexivity. Qed.

(** ** The order of the losses *)

(** [<] on floats is transitive, NaN being below and above nothing. *)
Lemma ltb_trans (x y z : float) :
  B64.ltb x y = true -> B64.ltb y z = true -> B64.ltb x z = true.
Proof.
  unfold B64.ltb, SFltb, SFcompare.
  destruct x as [sx|sx| |sx mx ex], y as [sy|sy| |sy my ey], z as [sz|sz| |sz mz ez];
    try discriminate;
    repeat match goal with s : bool |- _ => destruct s end;
    try discriminate; try reflexivity;
    rewrite ?Pos.compare_cont_spec; cbn [Pos.switch_Eq];
    repeat match goal with
      | |- context [Z.compare ?a ?b] => destruct (Z.compare_spec a b)
      | |- context [Pos.compare ?a ?b] => destruct (Pos.compare_spec a b)
      end;
    cbn; try discriminate; try reflexivity; intros; try lia.
Qed.

Lemma ltb_lower_bound (v b b' : float) :
  B64.ltb b' b = true -> B64.ltb v b = false -> B64.ltb v b' = false.
Proof.
  intros Hb Hv. destruct (B64.ltb v b') eqn:H; [|reflexivity].
  now rewrite (ltb_trans v b' b H Hb) in Hv.
Qed.

Lemma ltb_irrefl (x : float) : B64.ltb x x = false.
Proof.
  unfold B64.ltb, SFltb, SFcompare.
  destruct x as [s|s| |s m e]; try reflexivity; destruct s; try reflexivity;
    rewrite Z.compare_refl, Pos.compare_cont_refl; reflexivity.
Qed.

Lemma never_improving_app (b : float) (vs ws : list float) :
  never_improving b (vs ++ ws) <-> never_improving b vs /\ never_improving b ws.
Proof. induction vs as [|v vs IH]; simpl; tauto. Qed.

Lemma never_improving_lower (b b' : float) (vs : list float) :
  B64.ltb b' b = true -> never_improving b vs -> never_improving b' vs.
Proof.
  intros Hb. induction vs as [|v vs IH]; simpl; [easy|].
  intros [Hv Hvs]. split; [now apply ltb_lower_bound with b | auto].
Qed.

Lemma never_improving_In (b : float) (vs : list float) :
  never_improving b vs <-> forall v, In v vs -> B64.ltb v b = false.
Proof.
  induction vs as [|v vs IH]; simpl; [tauto|]. rewrite IH. split.
  - intros [Hv Hvs] u [<-|Hu]; auto.
  - intros H. split; auto.
Qed.

(** ** The run of the training loop *)

Section Run.
Context `{E : Externals}.
Variable args : TrainArgs.t.
Variables tl vl : loader.

Lemma learning_snoc : forall n epoch wo ss wo1 s wo2,
  learning args tl vl n epoch wo = Ok (ss, wo1) ->
  Train.learn args tl vl (epoch + n) wo1 = Ok (s, wo2) ->
  learning args tl vl (S n) epoch wo = Ok ((ss ++ [s])%list, wo2).
Proof.
  induction n as [|n IH]; intros epoch wo ss wo1 s wo2 Hl Hs.
  - simpl in Hl. inversion Hl; subst ss wo1. rewrite Nat.add_0_r in Hs.
    simpl. rewrite Hs. reflexivity.
  - simpl in Hl. bind_as Hl q Hq. destruct q as [s0 wo0].
    bind_as Hl r Hr. destruct r as [ss0 wo3]. inversion Hl; subst ss wo1.
    change (learning args tl vl (S (S n)) epoch wo)
      with ('(s, wo') ← Train.learn args tl vl epoch wo;
            '(ss, wo'') ← learning args tl vl (S n) (S epoch) wo';
            mret (s :: ss, wo'')).
    rewrite Hq. cbn [mbind result_bind].
    rewrite (IH (S epoch) wo0 ss0 wo3 s wo2 Hr).
    + reflexivity.
    + now rewrite Nat.add_succ_comm.
Qed.

Lemma learning_take : forall n epoch wo ss wo1 k,
  learning args tl vl n epoch wo = Ok (ss, wo1) -> (k <= n)%nat ->
  exists wk, learning args tl vl k epoch wo = Ok (take k ss, wk).
Proof.
  induction n as [|n IH]; intros epoch wo ss wo1 k Hl Hk.
  - assert (k = O) by lia. subst k. simpl in Hl. inversion Hl. simpl. eauto.
  - destruct k as [|k]; [simpl; eauto|].
    simpl in Hl. bind_as Hl q Hq. destruct q as [s0 wo0].
    bind_as Hl r Hr. destruct r as [ss0 wo3]. inversion Hl; subst ss wo1.
    destruct (IH (S epoch) wo0 ss0 wo3 k Hr) as [wk Hwk]; [lia|].
    exists wk. simpl. rewrite Hq. cbn [mbind result_bind]. rewrite Hwk. reflexivity.
Qed.

Lemma extend_history_snoc (h : Train.history) ss s :
  extend_history h (ss ++ [s]) = Train.record_epoch (extend_history h ss) s.
Proof. unfold extend_history. now rewrite fold_left_app. Qed.

Lemma best_paths_differ : best_pt args <> best_npy args.
Proof.
  unfold best_pt, best_npy. intros H.
  apply path_join_inj in H; [discriminate | reflexivity | reflexivity].
Qed.

Variable wo0 : weights * optim.
Variable h0 : Train.history.
Variable b0 : float.
Variable fs0 : gmap string file.

(** One more epoch keeps the description of the run. *)
Lemma after_epochs_step (e : nat) ss st s wo :
  after_epochs args tl vl wo0 h0 b0 fs0 e ss st ->
  Train.learn args tl vl e (Train.net st, Train.opt st) = Ok (s, wo) ->
  after_epochs args tl vl wo0 h0 b0 fs0 (S e) (ss ++ [s])
    (Train.checkpoint args st s wo).
Proof.
  intros (Hl & Hh & Hnever & Hframe & Hbest) Hs.
  pose proof (learning_length _ _ _ _ _ _ _ _ Hl) as Hlen.
  pose proof (learning_snoc e O _ ss _ s wo Hl Hs) as Hl'.
  destruct (B64.ltb (Train.epoch_val_loss s) (Train.best_val_loss st)) eqn:Hlt.
  - rewrite (checkpoint_improved args st s wo Hlt).
    split; [|split; [|split; [|split]]]; cbn [Train.net Train.opt Train.hist
      Train.best_val_loss Train.files Train.epochs_since_improvement].
    + destruct wo; exact Hl'.
    + now rewrite extend_history_snoc, Hh.
    + unfold val_losses. rewrite map_app. apply never_improving_app. split.
      * now apply never_improving_lower with (Train.best_val_loss st).
      * simpl. split; [apply ltb_irrefl | exact I].
    + intros path H1 H2.
      rewrite lookup_insert_ne by (intros Heq; apply H2; now rewrite <- Heq).
      rewrite lookup_insert_ne by (intros Heq; apply H1; now rewrite <- Heq). auto.
    + right. exists (S e), wo, s.
      cbn [Train.best_val_loss Train.files Train.epochs_since_improvement].
      rewrite firstn_all2 by (rewrite length_app; simpl; lia).
      split; [lia|]. split; [exact Hl'|].
      split.
      { replace (S e - 1)%nat with (length ss) by lia.
        now rewrite list_lookup_middle. }
      split; [reflexivity|]. split.
      { destruct Hbest as [(Hb & _)|(n & wn & sn & _ & _ & _ & Hb & Hbb & _)].
        - now rewrite <- Hb.
        - rewrite Hb in Hlt. now apply ltb_trans with (Train.epoch_val_loss sn). }
      split.
      { rewrite lookup_insert_ne by (apply not_eq_sym, best_paths_differ).
        apply lookup_insert_eq. }
      split.
      { rewrite lookup_insert_eq. now rewrite extend_history_snoc, Hh. }
      lia.
  - rewrite (checkpoint_stalled args st s wo Hlt).
    split; [|split; [|split; [|split]]]; cbn [Train.net Train.opt Train.hist
      Train.best_val_loss Train.files Train.epochs_since_improvement].
    + destruct wo; exact Hl'.
    + now rewrite extend_history_snoc, Hh.
    + unfold val_losses. rewrite map_app. apply never_improving_app. split.
      * exact Hnever.
      * simpl. auto.
    + exact Hframe.
    + destruct Hbest as [(Hb & H1 & H2 & H3)|(n & wn & sn & Hn & Hln & Hsn & Hb & Hbb & H1 & H2 & H3)].
      * left. cbn [Train.best_val_loss Train.files Train.epochs_since_improvement].
        repeat split; auto. lia.
      * right. exists n, wn, sn.
        cbn [Train.best_val_loss Train.files Train.epochs_since_improvement].
        rewrite take_app_le by lia.
        split; [lia|]. split; [exact Hln|].
        split; [rewrite lookup_app_l by lia; exact Hsn|].
        repeat split; auto. lia.
Qed.

(** The loop, from a state after [e] epochs: it ends after [e'] epochs,
    before the last planned one only with the counter beyond the
    patience, and with the counter within [patience + 1] when it started
    within the patience. *)
Lemma train_loop_run : forall todo e ss st st',
  after_epochs args tl vl wo0 h0 b0 fs0 e ss st ->
  Train.train_loop args tl vl todo e st = Ok st' ->
  exists e' ss',
    after_epochs args tl vl wo0 h0 b0 fs0 e' ss' st' /\
    (e <= e' <= e + todo)%nat /\
    ((0 < todo)%nat -> (e < e')%nat) /\
    ((e' < e + todo)%nat -> TrainArgs.patience args < Train.epochs_since_improvement st') /\
    ((e < e')%nat -> Train.epochs_since_improvement st <= TrainArgs.patience args ->
     Train.epochs_since_improvement st' <= TrainArgs.patience args + 1) /\
    ((e + 1 < e')%nat -> 0 <= TrainArgs.patience args).
Proof.
  induction todo as [|todo IH]; intros e ss st st' Hinv Hloop.
  - simpl in Hloop. inversion Hloop; subst st'.
    exists e, ss. split; [exact Hinv|]. repeat split; intros; lia.
  - simpl in Hloop. bind_as Hloop st1 Hrun.
    unfold Train.run_epoch in Hrun. bind_as Hrun q Hq. destruct q as [s wo].
    inversion Hrun; subst st1; clear Hrun.
    pose proof (after_epochs_step e ss st s wo Hinv Hq) as Hinv1.
    assert (Hesi1 : 0 <= Train.epochs_since_improvement st ->
                    0 <= Train.epochs_since_improvement (Train.checkpoint args st s wo)).
    { unfold Train.checkpoint. destruct (B64.ltb _ _); simpl; lia. }
    assert (Hesi2 : Train.epochs_since_improvement (Train.checkpoint args st s wo)
                    <= Train.epochs_since_improvement st + 1
                    /\ 0 <= Train.epochs_since_improvement (Train.checkpoint args st s wo)).
    { assert (0 <= Train.epochs_since_improvement st).
      { destruct Hinv as (_ & _ & _ & _ & Hb).
        destruct Hb as [(_ & _ & _ & ->)|(n & wn & sn & Hn & _ & _ & _ & _ & _ & _ & ->)]; lia. }
      unfold Train.checkpoint. destruct (B64.ltb _ _); simpl; lia. }
    destruct (Z.ltb_spec (TrainArgs.patience args)
                (Train.epochs_since_improvement (Train.checkpoint args st s wo))) as [Hstop|Hgo].
    + inversion Hloop; subst st'.
      exists (S e), (ss ++ [s])%list. split; [exact Hinv1|]. repeat split; intros; lia.
    + destruct (IH (S e) _ _ st' Hinv1 Hloop)
        as (e' & ss' & Hinv' & Hrange & Hpos & Hearly & Hbound & Hpat).
      exists e', ss'. split; [exact Hinv'|]. split; [lia|]. split; [lia|].
      split; [intros; apply Hearly; lia|]. split.
      * intros _ _. destruct (Nat.eq_dec e' (S e)) as [->|Hne].
        -- destruct todo as [|todo'].
           ++ simpl in Hloop. inversion Hloop; subst st'. lia.
           ++ apply Hbound; [|exact Hgo].
              apply Hpos. lia.
        -- apply Hbound; [lia | exact Hgo].
      * intros _. lia.
Qed.
End Run.

(** ** What a run of train.py leaves behind *)

Section TrainedFiles.
Context `{E : Externals}.

(** The five artifacts have five different paths. *)
Lemma written_by_train_NoDup (args : TrainArgs.t) : List.NoDup (written_by_train args).
Proof.
  unfold written_by_train, model_npy, best_pt, best_npy, final_pt, final_npy.
  repeat constructor; simpl; intros H;
    repeat match goal with
    | H : _ \/ _ |- _ => destruct H as [H|H]
    | H : False |- _ => contradiction
    | H : path_join _ _ = path_join _ _ |- _ =>
        apply path_join_inj in H; [discriminate | reflexivity | reflexivity]
    end.
Qed.

Lemma paths_differ (args : TrainArgs.t) (f g : string) :
  String.prefix "/" f = false -> String.prefix "/" g = false -> f <> g ->
  path_join (TrainArgs.model_dir args) f <> path_join (TrainArgs.model_dir args) g.
Proof. intros Hf Hg Hne H. apply Hne. now apply path_join_inj in H. Qed.

(** The start of the loop, as a state after no epoch. *)
Lemma init_state_after_no_epoch (args : TrainArgs.t) (p : Train.prepared)
    (fs : gmap string file) :
  let st0 := Train.init_state args p fs in
  after_epochs args (Train.train_loader p) (Train.val_loader p)
    (Train.net st0, Train.opt st0) (Train.hist st0) (Train.best_val_loss st0)
    (Train.files st0) O [] st0.
Proof.
  intros st0. split; [reflexivity|]. split; [reflexivity|].
  split; [exact I|]. split; [reflexivity|].
  left. repeat split.
Qed.

(** A run that returns: the preparation, the number of epochs it ran and
    the state it saved. *)
Lemma main_run (args : TrainArgs.t) (w : world) (fs fs' : gmap string file) (code : Z) :
  Train.main args w fs = Ok (code, fs') ->
  exists p e ss st,
    let st0 := Train.init_state args p fs in
    Train.prepare args w = Ok p /\
    code = 0 /\
    fs' = Train.save_final args st /\
    after_epochs args (Train.train_loader p) (Train.val_loader p)
      (Train.net st0, Train.opt st0) (Train.hist st0) (Train.best_val_loss st0)
      (Train.files st0) e ss st /\
    (e <= Z.to_nat (TrainArgs.epochs args))%nat /\
    (0 < TrainArgs.epochs args -> (0 < e)%nat) /\
    ((e < Z.to_nat (TrainArgs.epochs args))%nat ->
     TrainArgs.patience args < Train.epochs_since_improvement st) /\
    (0 <= TrainArgs.patience args ->
     Train.epochs_since_improvement st <= TrainArgs.patience args + 1) /\
    ((1 < e)%nat -> 0 <= TrainArgs.patience args).
Proof.
  unfold Train.main. intros H. bind_as H p Hp. bind_as H st Hloop.
  inversion H; subst code fs'; clear H.
  destruct (train_loop_run args _ _ _ _ _ _ _ O [] _ st
              (init_state_after_no_epoch args p fs) Hloop)
    as (e & ss & Hinv & Hrange & Hpos & Hearly & Hbound & Hpat).
  exists p, e, ss, st. cbv zeta.
  split; [exact Hp|]. split; [reflexivity|]. split; [reflexivity|].
  split; [exact Hinv|]. split; [lia|]. split; [intros; apply Hpos; lia|].
  split; [intros; apply Hearly; lia|]. split.
  - intros Hpat0. destruct (Nat.eq_dec e O) as [->|Hne].
    + destruct Hinv as (_ & _ & _ & _ & Hb).
      destruct Hb as [(_ & _ & _ & ->)|(n & _ & _ & Hn & _)]; lia.
    + apply Hbound; [lia | simpl; lia].
  - intros He. apply Hpat. lia.
Qed.

Lemma save_final_other (args : TrainArgs.t) (st : Train.state) (path : string) :
  path <> final_pt args -> path <> final_npy args ->
  Train.save_final args st !! path = Train.files st !! path.
Proof.
  intros H1 H2. unfold Train.save_final.
  rewrite lookup_insert_ne by (intros Heq; apply H2; now rewrite <- Heq).
  now rewrite lookup_insert_ne by (intros Heq; apply H1; now rewrite <- Heq).
Qed.

Lemma init_files_other (args : TrainArgs.t) (p : Train.prepared)
    (fs : gmap string file) (path : string) :
  path <> model_npy args ->
  Train.files (Train.init_state args p fs) !! path = fs !! path.
Proof.
  intros H. simpl. now rewrite lookup_insert_ne by (intros Heq; apply H; now rewrite <- Heq).
Qed.

Lemma extend_history_lengths (h : Train.history) ss :
  length (Train.train (extend_history h ss)) = (length (Train.train h) + length ss)%nat /\
  length (Train.val (extend_history h ss)) = (length (Train.val h) + length ss)%nat /\
  length (Train.psnr (extend_history h ss)) = (length (Train.psnr h) + length ss)%nat.
Proof.
  rewrite extend_history_train, extend_history_val, extend_history_psnr.
  rewrite !length_app, !length_map. auto.
Qed.
End TrainedFiles.

(** Proves that two of the five paths differ. *)
Ltac differ :=
  unfold model_npy, best_pt, best_npy, final_pt, final_npy;
  apply paths_differ; [reflexivity | reflexivity | discriminate].

(** X1.  Whenever [train.py] returns, its status is 0 and the final
    checkpoint is the network after the last epoch it ran: for some
    number [e] of epochs, at most [--epochs] and at least one when
    [--epochs] is positive, the final weights are those after [e] epochs
    of learning and the three lists of the final history hold the [e]
    summaries of those epochs, in order. *)
Theorem final_checkpoint_is_last_epoch `{E : Externals}
    (args : TrainArgs.t) (w : world) (fs fs' : gmap string file) (code : Z) :
  Train.main args w fs = Ok (code, fs') ->
  code = 0 /\
  exists p e ss wo h,
    let st0 := Train.init_state args p fs in
    Train.prepare args w = Ok p /\
    (e <= Z.to_nat (TrainArgs.epochs args))%nat /\
    (0 < TrainArgs.epochs args -> (0 < e)%nat) /\
    learning args (Train.train_loader p) (Train.val_loader p) e O
      (Train.net st0, Train.opt st0) = Ok (ss, wo) /\
    fs' !! final_pt args = Some (FWeights wo.1) /\
    fs' !! final_npy args = Some (FPickle (Train.pickle h)) /\
    Train.model h = Train.model_params args (Train.train_mean p) (Train.train_std p) /\
    Train.train h = map Train.epoch_train_loss ss /\
    Train.val h = map Train.epoch_val_loss ss /\
    Train.psnr h = map Train.epoch_psnr ss /\
    length ss = e.
Proof.
  intros Hmain.
  destruct (main_run args w fs fs' code Hmain)
    as (p & e & ss & st & Hp & -> & -> & Hinv & He & Hpos & _).
  destruct Hinv as (Hl & Hh & _).
  split; [reflexivity|].
  exists p, e, ss, (Train.net st, Train.opt st), (Train.hist st). cbv zeta.
  split; [exact Hp|]. split; [exact He|]. split; [exact Hpos|].
  split; [exact Hl|].
  split; [apply save_final_pt|]. split; [apply save_final_npy|].
  rewrite Hh, extend_history_model, extend_history_train, extend_history_val,
    extend_history_psnr.
  repeat split. eapply learning_length; eassumption.
Qed.

(** ** The best checkpoint of a run *)

Section BestCheckpoint.
Context `{E : Externals}.

(** What [main] saves of the best checkpoint of the loop. *)
Lemma saved_best (args : TrainArgs.t) (st : Train.state) :
  Train.save_final args st !! best_pt args = Train.files st !! best_pt args /\
  Train.save_final args st !! best_npy args = Train.files st !! best_npy args.
Proof. split; apply save_final_other; differ. Qed.

Lemma init_best (args : TrainArgs.t) (p : Train.prepared) (fs : gmap string file) :
  Train.files (Train.init_state args p fs) !! best_pt args = fs !! best_pt args /\
  Train.files (Train.init_state args p fs) !! best_npy args = fs !! best_npy args.
Proof. split; apply init_files_other; differ. Qed.

Lemma take_extend_history (h0 : Train.history) ss (n : nat) :
  Train.train h0 = [] -> Train.val h0 = [] -> Train.psnr h0 = [] ->
  let hb := extend_history h0 (take n ss) in
  let hf := extend_history h0 ss in
  Train.model hb = Train.model hf /\
  Train.train hb = take n (Train.train hf) /\
  Train.val hb = take n (Train.val hf) /\
  Train.psnr hb = take n (Train.psnr hf).
Proof.
  intros H1 H2 H3 hb hf. subst hb hf.
  rewrite !extend_history_model, !extend_history_train, !extend_history_val,
    !extend_history_psnr, H1, H2, H3.
  cbn [app]. rewrite !firstn_map. auto.
Qed.
End BestCheckpoint.

(** X2.  The two artifacts of the best checkpoint belong together.
    After a run that returns, either they are as they were before the
    run, or they are the weights and the history of one and the same
    epoch [n] of the run: the weights after [n] epochs of learning, and
    the first [n] records of each list of the final history. *)
Theorem best_checkpoint_is_one_epoch `{E : Externals}
    (args : TrainArgs.t) (w : world) (fs fs' : gmap string file) (code : Z) :
  Train.main args w fs = Ok (code, fs') ->
  (fs' !! best_pt args = fs !! best_pt args /\
   fs' !! best_npy args = fs !! best_npy args)
  \/
  exists p n e ss wn wo hb hf,
    let st0 := Train.init_state args p fs in
    Train.prepare args w = Ok p /\
    (1 <= n <= e)%nat /\
    learning args (Train.train_loader p) (Train.val_loader p) e O
      (Train.net st0, Train.opt st0) = Ok (ss, wo) /\
    learning args (Train.train_loader p) (Train.val_loader p) n O
      (Train.net st0, Train.opt st0) = Ok (take n ss, wn) /\
    fs' !! best_pt args = Some (FWeights wn.1) /\
    fs' !! best_npy args = Some (FPickle (Train.pickle hb)) /\
    fs' !! final_npy args = Some (FPickle (Train.pickle hf)) /\
    Train.model hb = Train.model hf /\
    Train.train hb = take n (Train.train hf) /\
    Train.val hb = take n (Train.val hf) /\
    Train.psnr hb = take n (Train.psnr hf) /\
    length (Train.val hb) = n.
Proof.
  intros Hmain.
  destruct (main_run args w fs fs' code Hmain)
    as (p & e & ss & st & Hp & -> & -> & Hinv & _).
  destruct Hinv as (Hl & Hh & _ & _ & Hbest).
  destruct (saved_best args st) as [-> ->].
  destruct Hbest as [(_ & -> & -> & _)|(n & wn & sn & Hn & Hln & Hsn & _ & _ & H1 & H2 & _)].
  - left. apply init_best.
  - right. exists p, n, e, ss, wn, (Train.net st, Train.opt st),
      (extend_history (Train.hist (Train.init_state args p fs)) (take n ss)),
      (Train.hist st). cbv zeta.
    split; [exact Hp|]. split; [exact Hn|]. split; [exact Hl|]. split; [exact Hln|].
    split; [exact H1|]. split; [exact H2|]. split; [apply save_final_npy|].
    rewrite Hh.
    destruct (take_extend_history (Train.hist (Train.init_state args p fs)) ss n
                eq_refl eq_refl eq_refl) as (Ha & Hb & Hc & Hd).
    split; [exact Ha|]. split; [exact Hb|]. split; [exact Hc|]. split; [exact Hd|].
    rewrite extend_history_val. cbn [Train.hist Train.init_state Train.val app].
    rewrite length_map, length_take.
    pose proof (learning_length _ _ _ _ _ _ _ _ Hl). lia.
Qed.

(** X3.  The loss of the best checkpoint is the lowest of the run.
    After a run that returns, no validation loss of the final history is
    below the last validation loss of the best history, which is itself
    below 99999; when the run has left the best checkpoint as it was,
    no validation loss of the final history is below 99999. *)
Theorem best_loss_is_lowest `{E : Externals}
    (args : TrainArgs.t) (w : world) (fs fs' : gmap string file) (code : Z) :
  Train.main args w fs = Ok (code, fs') ->
  exists hf,
    fs' !! final_npy args = Some (FPickle (Train.pickle hf)) /\
    ((fs' !! best_npy args = fs !! best_npy args /\
      forall v, In v (Train.val hf) -> B64.ltb v (B64.of_Z 99999) = false)
     \/
     exists hb b,
       fs' !! best_npy args = Some (FPickle (Train.pickle hb)) /\
       last (Train.val hb) = Some b /\
       B64.ltb b (B64.of_Z 99999) = true /\
       forall v, In v (Train.val hf) -> B64.ltb v b = false).
Proof.
  intros Hmain.
  destruct (main_run args w fs fs' code Hmain)
    as (p & e & ss & st & Hp & -> & -> & Hinv & _).
  destruct Hinv as (Hl & Hh & Hnever & _ & Hbest).
  exists (Train.hist st). split; [apply save_final_npy|].
  destruct (saved_best args st) as [_ ->].
  assert (Hval : Train.val (Train.hist st) = val_losses ss).
  { rewrite Hh, extend_history_val. reflexivity. }
  rewrite Hval.
  destruct Hbest as [(Hb & _ & -> & _)|(n & wn & sn & Hn & Hln & Hsn & Hb & Hbb & _ & H2 & _)].
  - left. split; [apply init_best|].
    apply never_improving_In. rewrite Hb in Hnever. exact Hnever.
  - right. exists (extend_history (Train.hist (Train.init_state args p fs)) (take n ss)),
      (Train.epoch_val_loss sn).
    split; [exact H2|]. split.
    + rewrite extend_history_val. cbn [Train.hist Train.init_state Train.val app].
      rewrite last_lookup, length_map, length_take.
      pose proof (learning_length _ _ _ _ _ _ _ _ Hl) as Hlen.
      replace (Init.Nat.pred (n `min` length ss)) with (n - 1)%nat by lia.
      rewrite list_lookup_fmap, lookup_take_lt by lia. now rewrite Hsn.
    + split; [exact Hbb|]. apply never_improving_In. now rewrite <- Hb.
Qed.

(** X4.  Early stopping counts from the best epoch.  With a patience
    that is not negative, a run that returns has run at most
    [patience + 1] epochs more than the history of its best checkpoint
    has (more than none, when the best checkpoint is as it was), and
    exactly that many when it has stopped before [--epochs]. *)
Theorem early_stop_counts_from_best `{E : Externals}
    (args : TrainArgs.t) (w : world) (fs fs' : gmap string file) (code : Z) :
  Train.main args w fs = Ok (code, fs') ->
  0 <= TrainArgs.patience args ->
  exists hf,
    fs' !! final_npy args = Some (FPickle (Train.pickle hf)) /\
    let ran := Z.of_nat (length (Train.val hf)) in
    ((fs' !! best_npy args = fs !! best_npy args /\
      ran <= TrainArgs.patience args + 1 /\
      (ran < TrainArgs.epochs args -> ran = TrainArgs.patience args + 1))
     \/
     exists hb,
       fs' !! best_npy args = Some (FPickle (Train.pickle hb)) /\
       let best := Z.of_nat (length (Train.val hb)) in
       1 <= best <= ran /\
       ran <= best + TrainArgs.patience args + 1 /\
       (ran < TrainArgs.epochs args -> ran = best + TrainArgs.patience args + 1)).
Proof.
  intros Hmain Hpat.
  destruct (main_run args w fs fs' code Hmain)
    as (p & e & ss & st & Hp & -> & -> & Hinv & He & _ & Hearly & Hbound & _).
  specialize (Hbound Hpat).
  destruct Hinv as (Hl & Hh & _ & _ & Hbest).
  pose proof (learning_length _ _ _ _ _ _ _ _ Hl) as Hlen.
  exists (Train.hist st). split; [apply save_final_npy|]. cbv zeta.
  destruct (saved_best args st) as [_ ->].
  assert (Hran : length (Train.val (Train.hist st)) = e).
  { rewrite Hh, extend_history_val. cbn [Train.hist Train.init_state Train.val app].
    now rewrite length_map. }
  rewrite Hran.
  destruct Hbest as [(_ & _ & -> & Hesi)|(n & wn & sn & Hn & _ & _ & _ & _ & _ & H2 & Hesi)].
  - left. split; [apply init_best|]. split; [lia|].
    intros Hlt. assert (e < Z.to_nat (TrainArgs.epochs args))%nat by lia.
    specialize (Hearly H). lia.
  - right. exists (extend_history (Train.hist (Train.init_state args p fs)) (take n ss)).
    split; [exact H2|].
    rewrite extend_history_val. cbn [Train.hist Train.init_state Train.val app].
    rewrite length_map, length_take.
    replace (n `min` length ss)%nat with n by lia.
    split; [lia|]. split; [lia|].
    intros Hlt. assert (e < Z.to_nat (TrainArgs.epochs args))%nat by lia.
    specialize (Hearly H). lia.
Qed.

(** X5.  With a patience of at least [--epochs], early stopping never
    triggers: a run that returns has run every epoch, and each list of
    its final history has [--epochs] records. *)
Theorem enough_patience_runs_every_epoch `{E : Externals}
    (args : TrainArgs.t) (w : world) (fs fs' : gmap string file) (code : Z) :
  Train.main args w fs = Ok (code, fs') ->
  TrainArgs.epochs args <= TrainArgs.patience args ->
  exists hf,
    fs' !! final_npy args = Some (FPickle (Train.pickle hf)) /\
    length (Train.train hf) = Z.to_nat (TrainArgs.epochs args) /\
    length (Train.val hf) = Z.to_nat (TrainArgs.epochs args) /\
    length (Train.psnr hf) = Z.to_nat (TrainArgs.epochs args).
Proof.
  intros Hmain Hpat.
  destruct (main_run args w fs fs' code Hmain)
    as (p & e & ss & st & Hp & -> & -> & Hinv & He & _ & Hearly & _).
  destruct Hinv as (Hl & Hh & _ & _ & Hbest).
  pose proof (learning_length _ _ _ _ _ _ _ _ Hl) as Hlen.
  exists (Train.hist st). split; [apply save_final_npy|].
  destruct (extend_history_lengths (Train.hist (Train.init_state args p fs)) ss)
    as (H1 & H2 & H3).
  rewrite Hh, H1, H2, H3. cbn [Train.hist Train.init_state Train.train Train.val
    Train.psnr length Nat.add].
  assert (e = Z.to_nat (TrainArgs.epochs args)); [|lia].
  destruct (Nat.eq_dec e (Z.to_nat (TrainArgs.epochs args))) as [|Hne]; [assumption|].
  assert (Hlt : (e < Z.to_nat (TrainArgs.epochs args))%nat) by lia.
  specialize (Hearly Hlt).
  destruct Hbest as [(_ & _ & _ & Hesi)|(n & _ & _ & Hn & _ & _ & _ & _ & _ & _ & Hesi)]; lia.
Qed.

(** X6.  With a negative patience the loop stops after its first
    epoch, improvement or not: a run with a positive [--epochs] that
    returns has one record in each list of its final history. *)
Theorem negative_patience_runs_one_epoch `{E : Externals}
    (args : TrainArgs.t) (w : world) (fs fs' : gmap string file) (code : Z) :
  Train.main args w fs = Ok (code, fs') ->
  TrainArgs.patience args < 0 ->
  0 < TrainArgs.epochs args ->
  exists hf,
    fs' !! final_npy args = Some (FPickle (Train.pickle hf)) /\
    length (Train.train hf) = 1%nat /\
    length (Train.val hf) = 1%nat /\
    length (Train.psnr hf) = 1%nat.
Proof.
  intros Hmain Hpat Hep.
  destruct (main_run args w fs fs' code Hmain)
    as (p & e & ss & st & Hp & -> & -> & Hinv & He & Hpos & _ & _ & Hone).
  destruct Hinv as (Hl & Hh & _).
  pose proof (learning_length _ _ _ _ _ _ _ _ Hl) as Hlen.
  exists (Train.hist st). split; [apply save_final_npy|].
  destruct (extend_history_lengths (Train.hist (Train.init_state args p fs)) ss)
    as (H1 & H2 & H3).
  rewrite Hh, H1, H2, H3. cbn [Train.hist Train.init_state Train.train Train.val
    Train.psnr length Nat.add].
  specialize (Hpos Hep).
  assert (e = 1%nat); [|lia].
  destruct (Nat.eq_dec e 1%nat) as [|Hne]; [assumption|].
  assert (H : (1 < e)%nat) by lia. specialize (Hone H). lia.
Qed.

(** X7.  A run of [train.py] that returns has written five files at
    most and touched no other: every other path holds the file that it
    held before (the directories that the run creates are not files),
    and [model.npy] holds the hyperparameters and the standardization
    parameters with three empty lists, as it was written before the
    first epoch. *)
Theorem train_touches_five_files `{E : Externals}
    (args : TrainArgs.t) (w : world) (fs fs' : gmap string file) (code : Z) :
  Train.main args w fs = Ok (code, fs') ->
  (forall path, ~ In path (written_by_train args) -> fs' !! path = fs !! path) /\
  exists p,
    Train.prepare args w = Ok p /\
    fs' !! model_npy args
    = Some (FPickle (Train.pickle
        {| Train.model := Train.model_params args (Train.train_mean p) (Train.train_std p);
           Train.train := []; Train.val := []; Train.psnr := [] |})).
Proof.
  intros Hmain.
  destruct (main_run args w fs fs' code Hmain)
    as (p & e & ss & st & Hp & -> & -> & Hinv & _).
  destruct Hinv as (_ & _ & _ & Hframe & _).
  split.
  - intros path Hpath. unfold written_by_train in Hpath. simpl in Hpath.
    rewrite save_final_other by (intros ->; tauto).
    rewrite Hframe by (intros ->; tauto).
    apply init_files_other. intros ->; tauto.
  - exists p. split; [exact Hp|].
    rewrite save_final_other by differ.
    rewrite Hframe by differ.
    simpl. apply lookup_insert_eq.
Qed.

(** The runs of the examples return. *)
Lemma early_run_Ok :
  Train.main (E := Scripted.early_externals) Scripted.args1 Scripted.world3 ∅
  = Ok (0, artifacts Scripted.early_run).
Proof. apply (run_is_Ok (E := Scripted.early_externals) Scripted.early_run 0).
  vm_compute; reflexivity. Qed.

Lemma all_run_Ok :
  Train.main (E := Scripted.early_externals) Scripted.args_all Scripted.world3 ∅
  = Ok (0, artifacts Scripted.all_run).
Proof. apply (run_is_Ok (E := Scripted.early_externals) Scripted.all_run 0).
  vm_compute; reflexivity. Qed.

Lemma impatient_run_Ok :
  Train.main (E := Scripted.early_externals) Scripted.args_impatient Scripted.world3 ∅
  = Ok (0, artifacts Scripted.impatient_run).
Proof. apply (run_is_Ok (E := Scripted.early_externals) Scripted.impatient_run 0).
  vm_compute; reflexivity. Qed.

Section RunWitnesses.
#[local] Existing Instance Scripted.early_externals.

Lemma final_checkpoint_is_last_epoch_witness :
  0 = 0 /\
  exists p e ss wo h,
    let st0 := Train.init_state Scripted.args1 p (∅ : gmap string file) in
    Train.prepare Scripted.args1 Scripted.world3 = Ok p /\
    (e <= Z.to_nat (TrainArgs.epochs Scripted.args1))%nat /\
    (0 < TrainArgs.epochs Scripted.args1 -> (0 < e)%nat) /\
    learning Scripted.args1 (Train.train_loader p) (Train.val_loader p) e O
      (Train.net st0, Train.opt st0) = Ok (ss, wo) /\
    artifacts Scripted.early_run !! final_pt Scripted.args1 = Some (FWeights wo.1) /\
    artifacts Scripted.early_run !! final_npy Scripted.args1 = Some (FPickle (Train.pickle h)) /\
    Train.model h = Train.model_params Scripted.args1 (Train.train_mean p) (Train.train_std p) /\
    Train.train h = map Train.epoch_train_loss ss /\
    Train.val h = map Train.epoch_val_loss ss /\
    Train.psnr h = map Train.epoch_psnr ss /\
    length ss = e.
Proof.
  apply (final_checkpoint_is_last_epoch (E := Scripted.early_externals) Scripted.args1 Scripted.world3 ∅
           (artifacts Scripted.early_run) 0 early_run_Ok).
Defined.

Lemma best_checkpoint_is_one_epoch_witness :
  (artifacts Scripted.early_run !! best_pt Scripted.args1 = (∅ : gmap string file) !! best_pt Scripted.args1 /\
   artifacts Scripted.early_run !! best_npy Scripted.args1 = (∅ : gmap string file) !! best_npy Scripted.args1)
  \/
  exists p n e ss wn wo hb hf,
    let st0 := Train.init_state Scripted.args1 p (∅ : gmap string file) in
    Train.prepare Scripted.args1 Scripted.world3 = Ok p /\
    (1 <= n <= e)%nat /\
    learning Scripted.args1 (Train.train_loader p) (Train.val_loader p) e O
      (Train.net st0, Train.opt st0) = Ok (ss, wo) /\
    learning Scripted.args1 (Train.train_loader p) (Train.val_loader p) n O
      (Train.net st0, Train.opt st0) = Ok (take n ss, wn) /\
    artifacts Scripted.early_run !! best_pt Scripted.args1 = Some (FWeights wn.1) /\
    artifacts Scripted.early_run !! best_npy Scripted.args1 = Some (FPickle (Train.pickle hb)) /\
    artifacts Scripted.early_run !! final_npy Scripted.args1 = Some (FPickle (Train.pickle hf)) /\
    Train.model hb = Train.model hf /\
    Train.train hb = take n (Train.train hf) /\
    Train.val hb = take n (Train.val hf) /\
    Train.psnr hb = take n (Train.psnr hf) /\
    length (Train.val hb) = n.
Proof.
  apply (best_checkpoint_is_one_epoch (E := Scripted.early_externals) Scripted.args1 Scripted.world3 ∅
           (artifacts Scripted.early_run) 0 early_run_Ok).
Defined.

Lemma best_loss_is_lowest_witness :
  exists hf,
    artifacts Scripted.early_run !! final_npy Scripted.args1 = Some (FPickle (Train.pickle hf)) /\
    ((artifacts Scripted.early_run !! best_npy Scripted.args1 = (∅ : gmap string file) !! best_npy Scripted.args1 /\
      forall v, In v (Train.val hf) -> B64.ltb v (B64.of_Z 99999) = false)
     \/
     exists hb b,
       artifacts Scripted.early_run !! best_npy Scripted.args1 = Some (FPickle (Train.pickle hb)) /\
       last (Train.val hb) = Some b /\
       B64.ltb b (B64.of_Z 99999) = true /\
       forall v, In v (Train.val hf) -> B64.ltb v b = false).
Proof.
  apply (best_loss_is_lowest (E := Scripted.early_externals) Scripted.args1 Scripted.world3 ∅
           (artifacts Scripted.early_run) 0 early_run_Ok).
Defined.

Lemma early_stop_counts_from_best_witness :
  exists hf,
    artifacts Scripted.early_run !! final_npy Scripted.args1 = Some (FPickle (Train.pickle hf)) /\
    let ran := Z.of_nat (length (Train.val hf)) in
    ((artifacts Scripted.early_run !! best_npy Scripted.args1 = (∅ : gmap string file) !! best_npy Scripted.args1 /\
      ran <= TrainArgs.patience Scripted.args1 + 1 /\
      (ran < TrainArgs.epochs Scripted.args1 -> ran = TrainArgs.patience Scripted.args1 + 1))
     \/
     exists hb,
       artifacts Scripted.early_run !! best_npy Scripted.args1 = Some (FPickle (Train.pickle hb)) /\
       let best := Z.of_nat (length (Train.val hb)) in
       1 <= best <= ran /\
       ran <= best + TrainArgs.patience Scripted.args1 + 1 /\
       (ran < TrainArgs.epochs Scripted.args1 -> ran = best + TrainArgs.patience Scripted.args1 + 1)).
Proof.
  apply (early_stop_counts_from_best (E := Scripted.early_externals) Scripted.args1 Scripted.world3 ∅
           (artifacts Scripted.early_run) 0 early_run_Ok).
  vm_compute; discriminate.
Defined.

Lemma enough_patience_runs_every_epoch_witness :
  exists hf,
    artifacts Scripted.all_run !! final_npy Scripted.args_all = Some (FPickle (Train.pickle hf)) /\
    length (Train.train hf) = Z.to_nat (TrainArgs.epochs Scripted.args_all) /\
    length (Train.val hf) = Z.to_nat (TrainArgs.epochs Scripted.args_all) /\
    length (Train.psnr hf) = Z.to_nat (TrainArgs.epochs Scripted.args_all).
Proof.
  apply (enough_patience_runs_every_epoch (E := Scripted.early_externals) Scripted.args_all Scripted.world3 ∅
           (artifacts Scripted.all_run) 0 all_run_Ok).
  vm_compute; discriminate.
Defined.

Lemma negative_patience_runs_one_epoch_witness :
  exists hf,
    artifacts Scripted.impatient_run !! final_npy Scripted.args_impatient = Some (FPickle (Train.pickle hf)) /\
    length (Train.train hf) = 1%nat /\
    length (Train.val hf) = 1%nat /\
    length (Train.psnr hf) = 1%nat.
Proof.
  apply (negative_patience_runs_one_epoch (E := Scripted.early_externals) Scripted.args_impatient Scripted.world3 ∅
           (artifacts Scripted.impatient_run) 0 impatient_run_Ok).
  - reflexivity.
  - reflexivity.
Defined.

Lemma train_touches_five_files_witness :
  (forall path, ~ In path (written_by_train Scripted.args1) -> artifacts Scripted.early_run !! path = (∅ : gmap string file) !! path) /\
  exists p,
    Train.prepare Scripted.args1 Scripted.world3 = Ok p /\
    artifacts Scripted.early_run !! model_npy Scripted.args1
    = Some (FPickle (Train.pickle
        {| Train.model := Train.model_params Scripted.args1 (Train.train_mean p) (Train.train_std p);
           Train.train := []; Train.val := []; Train.psnr := [] |})).
Proof.
  apply (train_touches_five_files (E := Scripted.early_externals) Scripted.args1 Scripted.world3 ∅
           (artifacts Scripted.early_run) 0 early_run_Ok).
Defined.

End RunWitnesses.

(** ** The rows of a split *)

Lemma gather_app {A : Type} (a : list A) (i1 i2 : list nat) :
  gather a (i1 ++ i2) = (gather a i1 ++ gather a i2)%list.
Proof. apply omap_app. Qed.

Lemma gather_cons {A : Type} (a : list A) (i : nat) (idx : list nat) :
  gather a (i :: idx)
  = match a !! i with Some x => x :: gather a idx | None => gather a idx end.
Proof. reflexivity. Qed.

Lemma gather_length {A : Type} (a : list A) (idx : list nat) :
  Forall (fun i => (i < length a)%nat) idx -> length (gather a idx) = length idx.
Proof.
  induction 1 as [|i idx Hi _ IH]; [reflexivity|].
  rewrite gather_cons.
  destruct (lookup_lt_is_Some_2 a i Hi) as [x ->]. simpl. now rewrite IH.
Qed.

Lemma gather_seq {A : Type} (pre a : list A) :
  gather (pre ++ a) (seq (length pre) (length a)) = a.
Proof.
  revert pre. induction a as [|x a IH]; intros pre; [reflexivity|].
  cbn [length seq]. rewrite gather_cons.
  rewrite lookup_app_r, Nat.sub_diag by lia. simpl. f_equal.
  specialize (IH (pre ++ [x])%list).
  rewrite <- app_assoc, length_app in IH. simpl in IH.
  now rewrite Nat.add_1_r in IH.
Qed.

(** The rows at a permutation of the positions are the rows, permuted. *)
Lemma gather_Permutation {A : Type} (a : list A) (idx : list nat) :
  Permutation idx (seq 0 (length a)) -> Permutation (gather a idx) a.
Proof.
  intros H. unfold gather. rewrite H.
  change (Permutation (gather ([] ++ a) (seq (length (@nil A)) (length a))) a).
  now rewrite gather_seq.
Qed.

(** The rows of two arrays at the same positions go together. *)
Lemma gather_zip {A B : Type} (a : list A) (b : list B) (idx : list nat) :
  length a = length b ->
  gather (zip a b) idx = zip (gather a idx) (gather b idx).
Proof.
  intros Hlen. induction idx as [|i idx IH]; [reflexivity|].
  rewrite !gather_cons, lookup_zip_with.
  destruct (a !! i) as [x|] eqn:Ha; simpl.
  - destruct (lookup_lt_is_Some_2 b i) as [y Hb].
    { rewrite <- Hlen. eapply lookup_lt_Some, Ha. }
    rewrite Hb. simpl. f_equal. exact IH.
  - rewrite (lookup_ge_None_2 b i).
    + exact IH.
    + rewrite <- Hlen. now apply lookup_ge_None_1.
Qed.

Section SplitData.
Context `{E : Externals}.

Lemma rng_permutation_lt (seed : Z) (n : nat) :
  Forall (fun i => (i < n)%nat) (rng_permutation seed n).
Proof.
  apply List.Forall_forall. intros i Hi.
  apply (Permutation_in _ (rng_permutation_perm seed n)) in Hi.
  apply in_seq in Hi. lia.
Qed.

Lemma split_indices_lt (n : nat) (seed : Z) :
  Forall (fun i => (i < n)%nat) (split_indices n seed).1 /\
  Forall (fun i => (i < n)%nat) (split_indices n seed).2.
Proof.
  pose proof (rng_permutation_lt seed n) as H.
  rewrite <- split_indices_app in H. apply Forall_app in H. tauto.
Qed.

Lemma split_indices_length (n : nat) (seed : Z) :
  (n_test_of n <= n)%nat ->
  length (split_indices n seed).1 = (n - n_test_of n)%nat /\
  length (split_indices n seed).2 = n_test_of n.
Proof.
  intros Hn. unfold split_indices. cbn [fst snd].
  rewrite !length_take, length_drop, rng_permutation_length. lia.
Qed.

(** What a successful split returns, whatever the seed object. *)
Lemma train_test_split_rows (a b : tensor) (random_state : pyval) r :
  train_test_split a b random_state = Ok r ->
  exists seed,
    np_random_seed random_state = Ok seed /\
    length a = length b /\ (n_test_of (length a) < length a)%nat /\
    r = (gather a (split_indices (length a) seed).1,
         gather a (split_indices (length a) seed).2,
         gather b (split_indices (length a) seed).1,
         gather b (split_indices (length a) seed).2).
Proof.
  unfold train_test_split.
  destruct (Nat.eqb_spec (length a) (length b)) as [Hlen|]; [|discriminate].
  simpl negb. cbv iota.
  destruct (Nat.eqb_spec (length a - n_test_of (length a)) 0) as [|Hn]; [discriminate|].
  intros H. bind_as H z Hz. exists z.
  destruct (split_indices (length a) z) as [itr ite]. inversion H.
  repeat split; auto. lia.
Qed.
End SplitData.

Lemma split_sizes `{E : Externals}
    (a b : tensor) (random_state : pyval) (x_train x_val y_train y_val : tensor) :
  train_test_split a b random_state = Ok (x_train, x_val, y_train, y_val) ->
  length x_val = n_test_of (length a) /\ length y_val = n_test_of (length a) /\
  length x_train = (length a - n_test_of (length a))%nat /\
  length y_train = (length a - n_test_of (length a))%nat.
Proof.
  intros H. apply train_test_split_rows in H.
  destruct H as (seed & _ & Hlen & Hn & H).
  destruct (split_indices_lt (length a) seed) as [Hlt1 Hlt2].
  destruct (split_indices_length (length a) seed) as [Hl1 Hl2]; [lia|].
  remember (split_indices (length a) seed) as idx eqn:Hidx. clear Hidx.
  injection H as -> -> -> ->.
  rewrite !gather_length; [lia | | | |]; try assumption; now rewrite <- Hlen.
Qed.

(** X8.  A split loses no example, repeats none and keeps every noisy
    spectrum with its clean one: the pairs of the validation part
    followed by the pairs of the training part are a permutation of the
    pairs of the dataset.  The validation part has
    [ceil(0.1 * n)] examples, the product taken in binary64, and the
    training part the others. *)
Theorem split_keeps_every_pair `{E : Externals}
    (a b : tensor) (random_state : pyval) (x_train x_val y_train y_val : tensor) :
  train_test_split a b random_state = Ok (x_train, x_val, y_train, y_val) ->
  Permutation (zip x_val y_val ++ zip x_train y_train) (zip a b) /\
  Permutation (x_val ++ x_train) a /\
  Permutation (y_val ++ y_train) b /\
  length x_val = n_test_of (length a) /\ length y_val = n_test_of (length a) /\
  length x_train = (length a - n_test_of (length a))%nat /\
  length y_train = (length a - n_test_of (length a))%nat.
Proof.
  intros H. apply train_test_split_rows in H.
  destruct H as (seed & _ & Hlen & Hn & H).
  remember (split_indices (length a) seed) as idx eqn:Hidx.
  assert (Hperm : Permutation (idx.2 ++ idx.1) (seq 0 (length a))).
  { subst idx. rewrite split_indices_app. apply rng_permutation_perm. }
  destruct (split_indices_lt (length a) seed) as [Hlt1 Hlt2].
  destruct (split_indices_length (length a) seed) as [Hl1 Hl2]; [lia|].
  rewrite <- Hidx in Hlt1, Hlt2, Hl1, Hl2. clear Hidx.
  injection H as -> -> -> ->.
  split; [|split; [|split]].
  - rewrite <- !gather_zip, <- gather_app by exact Hlen.
    apply gather_Permutation. now rewrite length_zip, <- Hlen, Nat.min_id.
  - rewrite <- gather_app. now apply gather_Permutation.
  - rewrite <- gather_app. apply gather_Permutation. now rewrite <- Hlen.
  - rewrite !gather_length; [lia | | | |]; try assumption;
      now rewrite <- Hlen.
Qed.

(** ** When training returns *)

Section Returns.
Context `{E : Externals}.

Lemma shape_eqb_length (a b : tensor) :
  shape_eqb (shape a) (shape b) = true -> length a = length b.
Proof.
  unfold shape_eqb, shape, len.
  destruct a as [|x a], b as [|y b]; intros H;
    try reflexivity; try discriminate H.
  apply andb_prop in H. destruct H as [H _].
  apply andb_prop in H. destruct H as [H _].
  apply Z.eqb_eq in H. simpl in *. lia.
Qed.

Lemma np_random_seed_Ok (z : Z) :
  0 <= z < 2 ^ 32 <-> np_random_seed (PyInt z) = Ok z.
Proof.
  simpl. destruct (Z.leb_spec 0 z), (Z.ltb_spec z (2 ^ 32)); simpl;
    split; intros Hz; try reflexivity; try discriminate; lia.
Qed.

Lemma load_and_split_accepted (args : TrainArgs.t) (w : world) r :
  Train.load_and_split args w = Ok r ->
  let noisy := expand_dims (loaded_noisy w) in
  let clean := expand_dims (loaded_clean w) in
  path_exists w (TrainArgs.train_set args) = true /\
  shape_eqb (shape noisy) (shape clean) = true /\
  0 <= TrainArgs.seed args < 2 ^ 32 /\
  (n_test_of (length noisy) < length noisy)%nat.
Proof.
  intros H noisy clean. unfold Train.load_and_split in H. fold noisy clean in H.
  bind_as H u1 H1. bind_as H u2 H2. bind_as H z H3.
  unfold py_assert in H1, H2.
  destruct (path_exists _ _); [|discriminate].
  destruct (shape_eqb _ _); [|discriminate].
  pose proof (np_random_seed_int _ _ H3); subst z.
  apply np_random_seed_Ok in H3.
  apply train_test_split_rows in H. destruct H as (_ & _ & _ & Hn & _).
  auto.
Qed.

(** The loaders of a preparation that succeeds. *)
Lemma prepare_loaders (args : TrainArgs.t) (w : world) (p : Train.prepared) :
  Train.prepare args w = Ok p ->
  let n := length (loaded_noisy w) in
  accepted args w /\
  length (dataset (Train.train_loader p)) = (n - n_test_of n)%nat /\
  length (dataset (Train.val_loader p)) = n_test_of n /\
  bs (Train.train_loader p)
  = Z.to_nat (TrainArgs.batch_size args * Z.of_nat (device_count w)) /\
  bs (Train.val_loader p) = Z.to_nat (TrainArgs.batch_size args) /\
  shuffle (Train.train_loader p) = true /\
  shuffle (Train.val_loader p) = false.
Proof.
  intros H n. unfold Train.prepare in H.
  bind_as H r Hr. destruct r as [[[xt xv] yt] yv].
  bind_as H ldt Htl. bind_as H ldv Hvl. injection H as <-.
  cbn [Train.train_loader Train.val_loader].
  destruct (load_and_split_accepted _ _ _ Hr) as (Hp & Hs & Hseed & Hn).
  unfold Train.load_and_split in Hr.
  bind_as Hr u1 H1. bind_as Hr u2 H2. bind_as Hr z H3.
  apply (split_sizes) in Hr.
  cbv zeta in Hn. unfold expand_dims in Hn, Hr.
  rewrite length_map in Hn, Hr. fold n in Hn, Hr.
  destruct Hr as (Hxv & Hyv & Hxt & Hyt).
  rewrite len_setup_gpus in Htl.
  unfold DataLoader in Htl, Hvl.
  destruct (Z.leb_spec (TrainArgs.batch_size args * Z.of_nat (device_count w)) 0);
    [discriminate|].
  destruct (Z.leb_spec (TrainArgs.batch_size args) 0); [discriminate|].
  injection Htl as <-. injection Hvl as <-. cbn [dataset bs shuffle].
  unfold TensorDataset, to_f32, Train.standardize, tmap.
  rewrite !length_zip, !length_map, Hxv, Hyv, Hxt, Hyt.
  split; [|repeat split; try reflexivity; lia].
  unfold accepted. cbv zeta. unfold expand_dims. rewrite length_map.
  repeat split; try assumption; lia.
Qed.

(** An epoch needs a validation example: the mean of the validation
    losses divides by the number of validation batches. *)
Lemma learn_needs_validation (args : TrainArgs.t) (tl vl : loader) (epoch : nat)
    (wo : weights * optim) r :
  Train.learn args tl vl epoch wo = Ok r -> dataset vl <> [].
Proof.
  unfold Train.learn. destruct (fold_left _ _ _) as [train_loss [w' o]].
  intros H. bind_as H a Ha. destruct a as [vloss ps].
  bind_as H t Ht. bind_as H v Hv.
  unfold py_div, loader_len, chunks in Hv. intros Hnil. rewrite Hnil in Hv.
  discriminate.
Qed.
End Returns.

(** X9.  [train.py] returns only when the dataset file exists, the two
    arrays have one shape, the seed is a 32-bit number, the split leaves
    a training example, the batch size is positive and a device is
    found, and, when an epoch is run, the split has a validation
    example: where one of these fails, the run ends in an exception.
    The conditions are necessary; the directories, the optimizer and
    the network can make a run fail as well.  The status of a run that
    returns is 0. *)
Theorem train_returns_only_when `{E : Externals}
    (args : TrainArgs.t) (w : world) (fs fs' : gmap string file) (code : Z) :
  Train.main args w fs = Ok (code, fs') ->
  code = 0 /\
  accepted args w /\
  (0 < TrainArgs.epochs args -> (0 < n_test_of (length (loaded_noisy w)))%nat).
Proof.
  intros H. unfold Train.main in H.
  bind_as H p Hp. bind_as H st Hl. injection H as <- _.
  destruct (prepare_loaders args w p Hp) as (Hacc & _ & Hval & _).
  split; [reflexivity|]. split; [exact Hacc|]. intros Hep.
  destruct (Z.to_nat (TrainArgs.epochs args)) as [|todo] eqn:Htodo; [lia|].
  simpl in Hl. bind_as Hl st' Hst. unfold Train.run_epoch in Hst.
  bind_as Hst s Hs. apply learn_needs_validation in Hs.
  rewrite <- Hval. destruct (dataset (Train.val_loader p)); [congruence|simpl; lia].
Qed.

Lemma split_keeps_every_pair_witness :
  let a := expand_dims Scripted.noisy12 in
  let b := expand_dims Scripted.other12 in
  let x_train := Scripted.pairs12.1.1.1 in
  let x_val := Scripted.pairs12.1.1.2 in
  let y_train := Scripted.pairs12.1.2 in
  let y_val := Scripted.pairs12.2 in
  Permutation (zip x_val y_val ++ zip x_train y_train) (zip a b) /\
  Permutation (x_val ++ x_train) a /\
  Permutation (y_val ++ y_train) b /\
  length x_val = n_test_of (length a) /\ length y_val = n_test_of (length a) /\
  length x_train = (length a - n_test_of (length a))%nat /\
  length y_train = (length a - n_test_of (length a))%nat.
Proof.
  apply (split_keeps_every_pair (E := Scripted.tenths)
           (expand_dims Scripted.noisy12) (expand_dims Scripted.other12) (PyInt 42)
           Scripted.pairs12.1.1.1 Scripted.pairs12.1.1.2
           Scripted.pairs12.1.2 Scripted.pairs12.2).
  vm_compute; reflexivity.
Defined.

Lemma train_returns_only_when_witness :
  0 = 0 /\
  accepted Scripted.args1 Scripted.world3 /\
  (0 < TrainArgs.epochs Scripted.args1 ->
   (0 < n_test_of (length (loaded_noisy Scripted.world3)))%nat).
Proof.
  apply (train_returns_only_when (E := Scripted.early_externals)
           Scripted.args1 Scripted.world3 ∅ (artifacts Scripted.early_run) 0).
  exact early_run_Ok.
Defined.

(** X10.  With [--epochs] zero or negative, [train.py] trains nothing
    and still writes a final checkpoint: [final_model.pt] holds the
    freshly initialised network, [final_model.npy] the history with
    three empty lists that [model.npy] holds, and the best checkpoint is
    left as it was before the run. *)
Theorem no_epoch_saves_the_initial_network `{E : Externals}
    (args : TrainArgs.t) (w : world) (fs fs' : gmap string file) (code : Z) :
  Train.main args w fs = Ok (code, fs') ->
  TrainArgs.epochs args <= 0 ->
  fs' !! final_pt args
  = Some (FWeights (init_weights DnCNN (Train.hyper_of args) (TrainArgs.seed args))) /\
  (exists h, fs' !! final_npy args = Some (FPickle (Train.pickle h)) /\
             fs' !! model_npy args = Some (FPickle (Train.pickle h)) /\
             Train.train h = [] /\ Train.val h = [] /\ Train.psnr h = []) /\
  fs' !! best_pt args = fs !! best_pt args /\
  fs' !! best_npy args = fs !! best_npy args.
Proof.
  intros Hmain Hep.
  destruct (main_run args w fs fs' code Hmain)
    as (p & e & ss & st & Hp & -> & -> & Hinv & He & _).
  assert (e = O) by lia. subst e.
  destruct Hinv as (Hl & Hh & _ & Hframe & Hbest).
  simpl in Hl. injection Hl as <- Hnet _.
  simpl in Hh.
  split; [|split].
  - unfold final_pt. rewrite save_final_pt, <- Hnet. reflexivity.
  - exists (Train.hist st). split; [apply save_final_npy|].
    split; [|rewrite Hh; auto].
    rewrite save_final_other by differ.
    rewrite Hframe by differ.
    rewrite Hh. simpl. apply lookup_insert_eq.
  - destruct (saved_best args st) as [-> ->].
    destruct Hbest as [(_ & -> & -> & _)|(n & _ & _ & Hn & _)]; [|lia].
    apply init_best.
Qed.

Lemma none_run_Ok :
  Train.main (E := Scripted.early_externals) Scripted.args_none Scripted.world3 ∅
  = Ok (0, artifacts Scripted.none_run).
Proof. apply (run_is_Ok (E := Scripted.early_externals) Scripted.none_run 0).
  vm_compute; reflexivity. Qed.

Section NoEpochWitness.
#[local] Existing Instance Scripted.early_externals.

Lemma no_epoch_saves_the_initial_network_witness :
  artifacts Scripted.none_run !! final_pt Scripted.args_none
  = Some (FWeights (init_weights DnCNN
            (Train.hyper_of Scripted.args_none) (TrainArgs.seed Scripted.args_none))) /\
  (exists h, artifacts Scripted.none_run !! final_npy Scripted.args_none
             = Some (FPickle (Train.pickle h)) /\
             artifacts Scripted.none_run !! model_npy Scripted.args_none
             = Some (FPickle (Train.pickle h)) /\
             Train.train h = [] /\ Train.val h = [] /\ Train.psnr h = []) /\
  artifacts Scripted.none_run !! best_pt Scripted.args_none
  = (∅ : gmap string file) !! best_pt Scripted.args_none /\
  artifacts Scripted.none_run !! best_npy Scripted.args_none
  = (∅ : gmap string file) !! best_npy Scripted.args_none.
Proof.
  apply (no_epoch_saves_the_initial_network (E := Scripted.early_externals)
           Scripted.args_none Scripted.world3 ∅ (artifacts Scripted.none_run) 0
           none_run_Ok).
  vm_compute; discriminate.
Defined.
End NoEpochWitness.

(** ** The name of the history beside the weights *)

Lemma append_cons (c : ascii) (d s : string) : String c d +:+ s = String c (d +:+ s).
Proof. reflexivity. Qed.

Lemma append_nil (s : string) : "" +:+ s = s.
Proof. reflexivity. Qed.

Lemma prefix_nil (s : string) : String.prefix "" s = true.
Proof. now destruct s. Qed.

(** A match of [".pt"] does not begin in [d] and end in [s], when [s]
    begins with neither [p] nor [t]. *)
Lemma prefix_pt_app (d s : string) :
  d <> "" ->
  (forall s', s <> String "p"%char s') -> (forall s', s <> String "t"%char s') ->
  String.prefix ".pt" (d +:+ s) = String.prefix ".pt" d.
Proof.
  intros Hd Hp Ht.
  destruct d as [|c d]; [congruence|]. rewrite append_cons. cbn [String.prefix].
  destruct (ascii_dec "."%char c); [|reflexivity].
  destruct d as [|c1 d].
  { rewrite append_nil. destruct s as [|c2 s]; [reflexivity|]. cbn [String.prefix].
    destruct (ascii_dec "p"%char c2) as [<-|]; [now destruct (Hp s)|reflexivity]. }
  rewrite append_cons. cbn [String.prefix].
  destruct (ascii_dec "p"%char c1); [|reflexivity].
  destruct d as [|c2 d].
  { rewrite append_nil. destruct s as [|c3 s]; [reflexivity|]. cbn [String.prefix].
    destruct (ascii_dec "t"%char c3) as [<-|]; [now destruct (Ht s)|reflexivity]. }
  rewrite append_cons. cbn [String.prefix].
  destruct (ascii_dec "t"%char c2); [|reflexivity].
  now rewrite !prefix_nil.
Qed.

Lemma replace_pt_app (d s : string) :
  occurs ".pt" d = false ->
  (forall s', s <> String "p"%char s') -> (forall s', s <> String "t"%char s') ->
  str_replace (d +:+ s) ".pt" ".npy" = d +:+ str_replace s ".pt" ".npy".
Proof.
  intros Hd Hp Ht. unfold str_replace.
  induction d as [|c d IH]; [reflexivity|].
  cbn [occurs] in Hd. apply orb_false_elim in Hd. destruct Hd as [Hpre Hd].
  pose proof (prefix_pt_app (String c d) s) as Happ.
  rewrite !append_cons in *. cbn [replace_from].
  rewrite Happ, Hpre by (assumption || discriminate).
  f_equal. now apply IH.
Qed.

Lemma replace_pt_path (d f g : string) :
  occurs ".pt" d = false ->
  String.prefix "/" f = false -> String.prefix "/" g = false ->
  (forall s', f <> String "p"%char s') -> (forall s', f <> String "t"%char s') ->
  str_replace f ".pt" ".npy" = g ->
  str_replace (path_join d f) ".pt" ".npy" = path_join d g.
Proof.
  intros Hd Hf Hg Hp Ht Hfg. unfold path_join. rewrite Hf, Hg.
  destruct (String.eqb d ""); [exact Hfg|].
  destruct (last_is_slash d).
  - rewrite replace_pt_app by assumption. now rewrite Hfg.
  - rewrite replace_pt_app by (assumption || discriminate).
    f_equal. unfold str_replace in *. rewrite !append_cons, !append_nil.
    cbn [replace_from String.prefix].
    destruct (ascii_dec "."%char "/"%char); [discriminate|]. f_equal. exact Hfg.
Qed.

(** The metadata of the two checkpoints of [train.py] is looked for
    where training wrote it, provided the name of the model directory
    does not contain [.pt] itself. *)
Lemma history_name (args : TrainArgs.t) :
  occurs ".pt" (TrainArgs.model_dir args) = false ->
  str_replace (best_pt args) ".pt" ".npy" = best_npy args /\
  str_replace (final_pt args) ".pt" ".npy" = final_npy args.
Proof.
  intros Hd. unfold best_pt, best_npy, final_pt, final_npy.
  split; apply replace_pt_path; try assumption; try reflexivity; discriminate.
Qed.

(** With a model directory named [runs.pt], the metadata is looked for
    in another directory. *)
Example history_is_sought_elsewhere :
  str_replace (path_join "runs.pt" "best_model.pt") ".pt" ".npy"
  = "runs.npy/best_model.npy".
Proof. reflexivity. Qed.

(** X11.  What training saves, inference loads.  [denoise.py] looks for
    the metadata of a checkpoint under the name of the weights with
    every [.pt] replaced by [.npy]; when the name of the model directory
    does not contain [.pt] itself, then after a run of [train.py] that
    returns, the two loads of [denoise.py] on [final_model.pt] succeed:
    the weights are those of the final checkpoint, and the ["model"]
    entry of the metadata is the dictionary of hyperparameters and
    standardization parameters that training built. *)
Theorem denoise_loads_what_train_saved `{E : Externals}
    (args : TrainArgs.t) (w : world) (fs fs' : gmap string file) (code : Z) :
  Train.main args w fs = Ok (code, fs') ->
  occurs ".pt" (TrainArgs.model_dir args) = false ->
  exists p wts,
    Train.prepare args w = Ok p /\
    fs' !! final_pt args = Some (FWeights wts) /\
    Denoise.torch_load fs' (final_pt args) = Ok wts /\
    (history ← Denoise.pickle_load fs' (str_replace (final_pt args) ".pt" ".npy");
     subscript history "model")
    = Ok (PyDict (Train.model_params args (Train.train_mean p) (Train.train_std p))).
Proof.
  intros Hmain Hd.
  destruct (main_run args w fs fs' code Hmain)
    as (p & e & ss & st & Hp & -> & -> & Hinv & _).
  destruct Hinv as (_ & Hh & _).
  destruct (history_name args Hd) as [_ ->].
  exists p, (Train.net st). split; [exact Hp|].
  unfold Denoise.torch_load, Denoise.pickle_load, final_pt, final_npy.
  rewrite save_final_pt, save_final_npy.
  split; [reflexivity|]. split; [reflexivity|].
  cbn [mbind result_bind]. unfold Train.pickle, subscript, getitem.
  rewrite lookup_insert_eq, Hh, extend_history_model. reflexivity.
Qed.

Section LoadWitness.
#[local] Existing Instance Scripted.early_externals.

Lemma denoise_loads_what_train_saved_witness :
  exists p wts,
    Train.prepare Scripted.args1 Scripted.world3 = Ok p /\
    artifacts Scripted.early_run !! final_pt Scripted.args1 = Some (FWeights wts) /\
    Denoise.torch_load (artifacts Scripted.early_run) (final_pt Scripted.args1) = Ok wts /\
    (history ← Denoise.pickle_load (artifacts Scripted.early_run)
                 (str_replace (final_pt Scripted.args1) ".pt" ".npy");
     subscript history "model")
    = Ok (PyDict (Train.model_params Scripted.args1 (Train.train_mean p) (Train.train_std p))).
Proof.
  apply (denoise_loads_what_train_saved (E := Scripted.early_externals)
           Scripted.args1 Scripted.world3 ∅ (artifacts Scripted.early_run) 0
           early_run_Ok).
  reflexivity.
Defined.
End LoadWitness.

(** ** What [denoise.py] requires of a checkpoint *)

Lemma subscript_Ok (v : pyval) (key : string) (x : pyval) :
  subscript v key = Ok x -> exists d, v = PyDict d /\ d !! key = Some x.
Proof.
  destruct v; try discriminate. simpl. unfold getitem.
  destruct (_ !! key) eqn:Hk; [|discriminate]. intros [= <-]. eauto.
Qed.

Lemma py_eq_str_true (v : pyval) (s : string) : py_eq_str v s = true -> v = PyStr s.
Proof.
  destruct v; try discriminate. simpl. intros H. apply String.eqb_eq in H. now subst.
Qed.

Lemma py_eq_str_false (v : pyval) (s : string) : py_eq_str v s = false -> v <> PyStr s.
Proof. intros H ->. simpl in H. now rewrite String.eqb_refl in H. Qed.

Section Reader.
Context `{E : Externals}.

Lemma pickle_load_Ok (fs : gmap string file) (path : string) (v : pyval) :
  Denoise.pickle_load fs path = Ok v -> fs !! path = Some (FPickle v).
Proof.
  unfold Denoise.pickle_load. destruct (fs !! path) as [[|]|]; try discriminate.
  now intros [= ->].
Qed.

Lemma torch_load_Ok (fs : gmap string file) (path : string) (wts : weights) :
  Denoise.torch_load fs path = Ok wts -> fs !! path = Some (FWeights wts).
Proof.
  unfold Denoise.torch_load. destruct (fs !! path) as [[|]|]; try discriminate.
  now intros [= ->].
Qed.

Lemma hyper_of_Ok (d : gmap string pyval) (h : hyper) :
  Denoise.hyper_of (PyDict d) = Ok h ->
  Forall (fun k => is_Some (d !! k))
    ["num_channels"; "num_layers"; "kernel_size"; "stride"; "num_filters"].
Proof.
  unfold Denoise.hyper_of. intros H.
  bind_as H v1 H1. bind_as H v2 H2. bind_as H v3 H3. bind_as H v4 H4. bind_as H v5 H5.
  apply subscript_Ok in H1, H2, H3, H4, H5.
  destruct H1 as (d1 & [= <-] & H1), H2 as (d2 & [= <-] & H2),
    H3 as (d3 & [= <-] & H3), H4 as (d4 & [= <-] & H4), H5 as (d5 & [= <-] & H5).
  repeat constructor; eauto.
Qed.

Lemma resolve_seed_Ok (seed : option Z) (d : gmap string pyval) (s : Z) :
  Denoise.resolve_seed seed (PyDict d) = Ok (PyInt s) ->
  (seed = Some s /\ s <> 0) \/
  ((seed = None \/ seed = Some 0) /\ d !! "train_seed" = Some (PyInt s)).
Proof.
  unfold Denoise.resolve_seed. destruct seed as [z|].
  - destruct (Z.eqb_spec z 0) as [->|Hz].
    + intros H. apply subscript_Ok in H. destruct H as (d' & [= <-] & H). auto.
    + intros [= ->]. auto.
  - intros H. apply subscript_Ok in H. destruct H as (d' & [= <-] & H). auto.
Qed.
End Reader.

(** X12.  What a checkpoint must hold for [denoise.py] to return.  The
    file named like the weights, with [.pt] replaced by [.npy], is a
    pickled dictionary whose ["model"] entry is a dictionary with the
    keys ["train_mean"], ["train_std"] and ["model_name"]; the seed that
    the run uses is a 32-bit number, the one of the command line when
    that is not zero and the ["train_seed"] entry otherwise.  The status
    is 1 when the model name is neither ['DnCNN'] nor ['DnCNN-res'],
    and then nothing is denoised or saved; otherwise it is 0, the five
    hyperparameters and ["model_type"] are present, and the weights
    file holds weights. *)
Theorem denoise_needs_complete_metadata `{E : Externals}
    (args : DenoiseArgs.t) (w : world) (fs : gmap string file) (out : Denoise.output) :
  Denoise.main args w fs = Ok out ->
  exists history params name s,
    fs !! str_replace (DenoiseArgs.model args) ".pt" ".npy"
    = Some (FPickle (PyDict history)) /\
    history !! "model" = Some (PyDict params) /\
    is_Some (params !! "train_mean") /\
    is_Some (params !! "train_std") /\
    params !! "model_name" = Some name /\
    Denoise.used_seed out = Some s /\ 0 <= s < 2 ^ 32 /\
    ((DenoiseArgs.seed args = Some s /\ s <> 0) \/
     ((DenoiseArgs.seed args = None \/ DenoiseArgs.seed args = Some 0) /\
      params !! "train_seed" = Some (PyInt s))) /\
    ((Denoise.exit_status out = 1 /\
      name <> PyStr "DnCNN" /\ name <> PyStr "DnCNN-res" /\
      Denoise.denoised_spectra out = [] /\ Denoise.saved out = None)
     \/
     (Denoise.exit_status out = 0 /\
      (name = PyStr "DnCNN" \/ name = PyStr "DnCNN-res") /\
      Forall (fun k => is_Some (params !! k))
        ["num_channels"; "num_layers"; "kernel_size"; "stride"; "num_filters";
         "model_type"] /\
      exists wts, fs !! DenoiseArgs.model args = Some (FWeights wts))).
Proof.
  intros H. unfold Denoise.main in H.
  bind_as H u1 H1. bind_as H u2 H2.
  bind_as H history Hhist. apply pickle_load_Ok in Hhist.
  bind_as H params Hparams. apply subscript_Ok in Hparams.
  destruct Hparams as (hd & -> & Hmodel).
  bind_as H train_mean Hmean. apply subscript_Ok in Hmean.
  destruct Hmean as (pd & -> & Hmean).
  bind_as H train_std Hstd. apply subscript_Ok in Hstd.
  destruct Hstd as (pd' & [= <-] & Hstd).
  bind_as H seed Hseed. bind_as H s Hs.
  assert (seed = PyInt s) as ->.
  { destruct seed; try discriminate. now apply np_random_seed_int in Hs as ->. }
  apply np_random_seed_Ok in Hs. apply resolve_seed_Ok in Hseed.
  bind_as H ds Hds. bind_as H ldr Hldr. bind_as H net Hnet.
  unfold Denoise.create_model in Hnet.
  bind_as Hnet name Hname. apply subscript_Ok in Hname.
  destruct Hname as (pd' & [= <-] & Hname).
  exists hd, pd, name, s.
  split; [exact Hhist|]. split; [exact Hmodel|]. split; [eauto|]. split; [eauto|].
  split; [exact Hname|].
  destruct (py_eq_str name "DnCNN") eqn:Hn1.
  - apply py_eq_str_true in Hn1.
    bind_as Hnet h Hh. injection Hnet as <-. apply hyper_of_Ok in Hh.
    bind_as H v1 Hv1. bind_as H v2 Hv2. bind_as H wts Hw. bind_as H t Ht.
    bind_as H sv Hsv. bind_as H a1 Ha1. bind_as H a2 Ha2. injection H as <-.
    cbn [Denoise.used_seed Denoise.exit_status].
    apply subscript_Ok in Hv2. destruct Hv2 as (pd' & [= <-] & Hv2).
    apply torch_load_Ok in Hw.
    split; [reflexivity|]. split; [exact Hs|]. split; [exact Hseed|].
    right. split; [reflexivity|]. split; [auto|]. split; [|eauto].
    apply Forall_app with (l1 := [_; _; _; _; _]) (l2 := [_]). split; [exact Hh|].
    repeat constructor; eauto.
  - apply py_eq_str_false in Hn1.
    bind_as Hnet name' Hname'. apply subscript_Ok in Hname'.
    destruct Hname' as (pd' & [= <-] & Hname').
    rewrite Hname in Hname'. injection Hname' as <-.
    destruct (py_eq_str name "DnCNN-res") eqn:Hn2.
    + apply py_eq_str_true in Hn2.
      bind_as Hnet h Hh. injection Hnet as <-. apply hyper_of_Ok in Hh.
      bind_as H v1 Hv1. bind_as H v2 Hv2. bind_as H wts Hw. bind_as H t Ht.
      bind_as H sv Hsv. bind_as H a1 Ha1. bind_as H a2 Ha2. injection H as <-.
      cbn [Denoise.used_seed Denoise.exit_status].
      apply subscript_Ok in Hv2. destruct Hv2 as (pd' & [= <-] & Hv2).
      apply torch_load_Ok in Hw.
      split; [reflexivity|]. split; [exact Hs|]. split; [exact Hseed|].
      right. split; [reflexivity|]. split; [auto|]. split; [|eauto].
      apply Forall_app with (l1 := [_; _; _; _; _]) (l2 := [_]). split; [exact Hh|].
      repeat constructor; eauto.
    + apply py_eq_str_false in Hn2.
      injection Hnet as <-. injection H as <-.
      cbn [Denoise.used_seed Denoise.exit_status Denoise.denoised_spectra Denoise.saved].
      split; [reflexivity|]. split; [exact Hs|]. split; [exact Hseed|].
      left. auto.
Qed.

Lemma denoise_out_Ok :
  Scripted.denoise_run "DnCNN" "Gen-spectrum" = Ok Scripted.denoise_out.
Proof. vm_compute; reflexivity. Qed.

Lemma denoise_all_out_Ok : Scripted.denoise_all_run = Ok Scripted.denoise_all_out.
Proof. vm_compute; reflexivity. Qed.

Section ReaderWitness.
#[local] Existing Instance Scripted.tenths.

Lemma denoise_needs_complete_metadata_witness :
  exists history params name s,
    Scripted.checkpoint_files (E := Scripted.tenths) O "DnCNN" "Gen-spectrum"
      !! str_replace "models/best_model.pt" ".pt" ".npy"
    = Some (FPickle (PyDict history)) /\
    history !! "model" = Some (PyDict params) /\
    is_Some (params !! "train_mean") /\
    is_Some (params !! "train_std") /\
    params !! "model_name" = Some name /\
    Denoise.used_seed Scripted.denoise_out = Some s /\ 0 <= s < 2 ^ 32 /\
    (((None : option Z) = Some s /\ s <> 0) \/
     (((None : option Z) = None \/ (None : option Z) = Some 0) /\
      params !! "train_seed" = Some (PyInt s))) /\
    ((Denoise.exit_status Scripted.denoise_out = 1 /\
      name <> PyStr "DnCNN" /\ name <> PyStr "DnCNN-res" /\
      Denoise.denoised_spectra Scripted.denoise_out = [] /\
      Denoise.saved Scripted.denoise_out = None)
     \/
     (Denoise.exit_status Scripted.denoise_out = 0 /\
      (name = PyStr "DnCNN" \/ name = PyStr "DnCNN-res") /\
      Forall (fun k => is_Some (params !! k))
        ["num_channels"; "num_layers"; "kernel_size"; "stride"; "num_filters";
         "model_type"] /\
      exists wts, Scripted.checkpoint_files (E := Scripted.tenths) O "DnCNN" "Gen-spectrum"
                    !! "models/best_model.pt" = Some (FWeights wts))).
Proof.
  apply (denoise_needs_complete_metadata (E := Scripted.tenths)
           (Scripted.denoise_args None "models/best_model.pt") Scripted.world12
           (Scripted.checkpoint_files (E := Scripted.tenths) O "DnCNN" "Gen-spectrum") Scripted.denoise_out).
  exact denoise_out_Ok.
Defined.
End ReaderWitness.

(** ** One denoised spectrum per example *)

(** The batches of a loader hold its examples, each once and in order. *)
Lemma concat_chunks_fuel {A : Type} (bs : nat) :
  (0 < bs)%nat ->
  forall fuel (l : list A), (length l <= fuel)%nat -> concat (chunks_fuel fuel bs l) = l.
Proof.
  intros Hbs. induction fuel as [|fuel IH]; intros l Hl.
  - destruct l; [reflexivity | simpl in Hl; lia].
  - destruct l as [|x l]; [reflexivity|].
    cbn [chunks_fuel concat]. rewrite IH.
    + apply take_drop.
    + rewrite length_drop. simpl in *. lia.
Qed.

Lemma concat_chunks {A : Type} (bs : nat) (l : list A) :
  (0 < bs)%nat -> concat (chunks bs l) = l.
Proof. intros Hbs. now apply concat_chunks_fuel. Qed.

Section Count.
Context `{E : Externals}.
Hypothesis forward_length :
  forall a h m wts x, length (forward a h m wts x) = length x.

Lemma denoise_batch_length (a : arch) (h : hyper) (wts : weights) (params : pyval)
    (train_mean train_std : pyval) (acc t : Denoise.totals) (b : batch) :
  Denoise.denoise_batch a h wts params train_mean train_std acc b = Ok t ->
  length (Denoise.denoised t) = (length (Denoise.denoised acc) + length b.1)%nat.
Proof.
  destruct b as [noisy clean]. unfold Denoise.denoise_batch. intros H.
  bind_as H mean Hmean. bind_as H std Hstd. bind_as H p1 Hp1.
  bind_as H mt Hmt. bind_as H p2 Hp2. injection H as <-.
  cbn [Denoise.denoised fst]. rewrite length_app. f_equal.
  unfold Denoise.denoised_spectrum, tzip, to_f32, Denoise.standardize, tmap.
  destruct (py_eq_str mt "Gen-spectrum").
  - now rewrite length_map, forward_length, length_map.
  - rewrite length_zip_with, !length_map, forward_length, length_map. lia.
Qed.

Lemma denoise_batches_length (a : arch) (h : hyper) (wts : weights) (params : pyval)
    (train_mean train_std : pyval) (bs : list batch) :
  forall acc t,
    for_each bs (Denoise.denoise_batch a h wts params train_mean train_std) acc = Ok t ->
    length (Denoise.denoised t)
    = (length (Denoise.denoised acc) + length (concat (map fst bs)))%nat.
Proof.
  induction bs as [|b bs IH]; intros acc t H; simpl in H.
  - injection H as <-. simpl. lia.
  - bind_as H acc' Hb. apply denoise_batch_length in Hb. apply IH in H.
    cbn [map concat]. rewrite length_app. lia.
Qed.

Lemma ordered_batches_length (l : loader) (epoch : nat) :
  shuffle l = false -> (0 < bs l)%nat ->
  length (concat (map fst (batches l epoch))) = length (dataset l).
Proof.
  intros Hs Hbs. unfold batches. rewrite Hs, map_map.
  rewrite <- (concat_chunks (bs l) (dataset l) Hbs) at 2.
  generalize (chunks (bs l) (dataset l)). intros cs.
  induction cs as [|c cs IH]; [reflexivity|].
  cbn [map concat]. rewrite !length_app, IH. f_equal.
  unfold collate. cbn [fst]. apply length_fmap.
Qed.

Lemma val_dataset_length (args : DenoiseArgs.t) (noisy clean : tensor) (seed : pyval) ds :
  length noisy = length clean ->
  Denoise.val_dataset args noisy clean seed = Ok ds ->
  length ds = if DenoiseArgs.all args then length noisy else n_test_of (length noisy).
Proof.
  intros Hlen. unfold Denoise.val_dataset.
  destruct (DenoiseArgs.all args); simpl negb; cbv iota.
  - intros [= <-]. unfold TensorDataset, to_f32, tmap.
    rewrite length_zip, !length_map. lia.
  - intros H. bind_as H r Hr. destruct r as [[[xt xv] yt] yv].
    injection H as <-. apply split_sizes in Hr. destruct Hr as (Hxv & Hyv & _).
    unfold TensorDataset, to_f32, tmap.
    rewrite length_zip, !length_map. lia.
Qed.
End Count.

(** One example is saved as an array of one axis, two examples as an
    array of two. *)
Example squeeze_one_example :
  squeeze Scripted.example_noisy
  = Nd1 [Scripted.f32 1 1; Scripted.f32 2 1; Scripted.f32 3 1].
Proof. reflexivity. Qed.

Example squeeze_two_examples :
  squeeze (Scripted.example_noisy ++ Scripted.example_clean)
  = Nd2 [[Scripted.f32 1 1; Scripted.f32 2 1; Scripted.f32 3 1];
         [Scripted.f32 1 1; Scripted.f32 2 1; Scripted.f32 2 1]].
Proof. reflexivity. Qed.

(** X13.  [denoise.py] gives one denoised spectrum per example,
    provided the network returns as many examples as it is given.  A
    run that returns with status 0 has denoised every example of the
    dataset with [--all], and the [ceil(0.1 * n)] examples of the
    validation part of the split without it; only with [--all] the
    denoised spectra are saved, as the array that [np.squeeze] makes of
    them (every axis of length one dropped), in the output directory
    (the directory of the model when none is given). *)
Theorem denoise_gives_one_spectrum_per_example `{E : Externals}
    (args : DenoiseArgs.t) (w : world) (fs : gmap string file) (out : Denoise.output) :
  (forall a h m wts x, length (forward a h m wts x) = length x) ->
  Denoise.main args w fs = Ok out ->
  Denoise.exit_status out = 0 ->
  let n := length (loaded_noisy w) in
  let outdir :=
    match DenoiseArgs.outdir args with
    | Some d => if String.eqb d "" then dirname (DenoiseArgs.model args) else d
    | None => dirname (DenoiseArgs.model args)
    end in
  length (Denoise.denoised_spectra out)
  = (if DenoiseArgs.all args then n else n_test_of n) /\
  Denoise.saved out
  = (if DenoiseArgs.all args
     then Some (path_join outdir (DenoiseArgs.outfile args),
                squeeze (Denoise.denoised_spectra out))
     else None).
Proof.
  intros Hfwd H Hexit n outdir. unfold Denoise.main in H. fold outdir in H.
  bind_as H u1 H1. bind_as H u2 H2.
  bind_as H history Hhist. bind_as H params Hparams.
  bind_as H train_mean Hmean. bind_as H train_std Hstd.
  bind_as H seed Hseed. bind_as H s Hs.
  bind_as H ds Hds. bind_as H ldr Hldr. bind_as H net Hnet.
  destruct net as [[a h]|]; [|injection H as <-; discriminate Hexit].
  bind_as H v1 Hv1. bind_as H v2 Hv2. bind_as H wts Hw. bind_as H t Ht.
  bind_as H sv Hsv. bind_as H a1 Ha1. bind_as H a2 Ha2. injection H as <-.
  cbn [Denoise.denoised_spectra Denoise.saved].
  unfold py_assert in H2.
  destruct (shape_eqb _ _) eqn:Hshape; [|discriminate].
  apply shape_eqb_length in Hshape.
  apply (val_dataset_length args _ _ _ _ Hshape) in Hds.
  apply DataLoader_Ok in Hldr. destruct Hldr as (Hd & Hsh & Hbs).
  apply (denoise_batches_length Hfwd) in Ht. cbn [Denoise.denoised length] in Ht.
  rewrite (ordered_batches_length _ _ Hsh Hbs), Hd, Hds in Ht.
  unfold expand_dims in Ht. rewrite length_map in Ht. fold n in Ht.
  split; [exact Ht|].
  destruct (DenoiseArgs.all args).
  - bind_as Hsv u3 H3. now injection Hsv as <-.
  - now injection Hsv as <-.
Qed.

Lemma denoise_gives_one_spectrum_per_example_witness :
  let n := length (loaded_noisy Scripted.world12) in
  let outdir :=
    match DenoiseArgs.outdir Scripted.denoise_all_args with
    | Some d => if String.eqb d "" then dirname (DenoiseArgs.model Scripted.denoise_all_args) else d
    | None => dirname (DenoiseArgs.model Scripted.denoise_all_args)
    end in
  length (Denoise.denoised_spectra Scripted.denoise_all_out)
  = (if DenoiseArgs.all Scripted.denoise_all_args then n else n_test_of n) /\
  Denoise.saved Scripted.denoise_all_out
  = (if DenoiseArgs.all Scripted.denoise_all_args
     then Some (path_join outdir (DenoiseArgs.outfile Scripted.denoise_all_args),
                squeeze (Denoise.denoised_spectra Scripted.denoise_all_out))
     else None).
Proof.
  apply (denoise_gives_one_spectrum_per_example (E := Scripted.tenths)
           Scripted.denoise_all_args Scripted.world12
           (Scripted.checkpoint_files (E := Scripted.tenths) O "DnCNN" "Residual-spectrum")
           Scripted.denoise_all_out).
  - intros a h m wts x. simpl. apply length_map.
  - exact denoise_all_out_Ok.
  - vm_compute; reflexivity.
Defined.
